(** * fyne-cross, linux platform command (internal/command/linux.go)

    A shallow embedding of the linux command: target resolution and
    descriptor setup ([setupContainerImages]), argument parsing ([Parse])
    and the per-descriptor pipeline ([Build]).  Calls into collaborators
    (container engine, packaging tool, icon preparation, flag set, logger)
    are recorded in a trace; what they answer is given by a [Host]. *)

From Stdlib Require Import Ascii String.
From stdpp Require Import gmap strings list fin_maps.

Open Scope string_scope.
Open Scope list_scope.

(** ** Data model *)

(** [type Architecture string] *)
Abbreviation Architecture := string (only parsing).

(** Modelled from the spec: the Architecture constants are declared outside
    linux.go; their string values are the tokens of the Linux supported set
    {amd64, 386, arm, arm64}. *)
Definition ArchAmd64 : Architecture := "amd64".
Definition Arch386 : Architecture := "386".
Definition ArchArm : Architecture := "arm".
Definition ArchArm64 : Architecture := "arm64".

Definition linuxOS : string := "linux".
Definition linuxImageAmd64 : string := "ghcr.io/herugen/fyne-cross-images-linux:latest".
Definition linuxImage386 : string := "ghcr.io/herugen/fyne-cross-images-linux:latest".
Definition linuxImageArm64 : string := "ghcr.io/herugen/fyne-cross-images-linux:latest".
Definition linuxImageArm : string := "ghcr.io/herugen/fyne-cross-images-linux:latest".

Definition linuxArchSupported : list Architecture :=
  [ArchAmd64; Arch386; ArchArm; ArchArm64].

(** Go error values.  [Errorf prefix cause] is the error built by
    [fmt.Errorf] from a constant prefix followed by the message of [cause]. *)
Inductive error : Type :=
| UnsupportedArchitecture (token : string) (supported : list Architecture)
| CollaboratorError (msg : string)
| Errorf (prefix : string) (cause : error).

(** Modelled from the spec: the volume object declared in package volume;
    three logical directories, each with a host and a container path. *)
Record volume_Volume : Type := {
  workDirHost : string;
  workDirContainer : string;
  tmpDirHost : string;
  tmpDirContainer : string;
  binDirHost : string;
  binDirContainer : string
}.

(** Modelled from the spec: the Build Context declared outside linux.go;
    application name, release flag and the volume. *)
Record Context : Type := {
  Name : string;
  Release : bool;
  Volume : volume_Volume
}.

Definition WorkDirContainer (ctx : Context) : string := workDirContainer (Volume ctx).
Definition TmpDirContainer (ctx : Context) : string := tmpDirContainer (Volume ctx).
Definition BinDirContainer (ctx : Context) : string := binDirContainer (Volume ctx).

(** Modelled from the spec: the shared flags; the only one linux.go reads
    (through overrideDockerImage) is the caller's image override. *)
Record CommonFlags : Type := {
  AppName : string;
  ReleaseFlag : bool;
  DockerImage : string
}.

(** [type targetArchFlag []string] *)
Abbreviation targetArchFlag := (list string) (only parsing).

Record linuxFlags : Type := {
  linuxCommonFlags : CommonFlags;
  TargetArch : targetArchFlag
}.

(** Modelled from the spec: the engine is a factory chosen from the context;
    nothing else of it is observed by linux.go. *)
Record containerEngine : Type := {
  engineName : string
}.

(** Modelled from the spec: a Container Image Descriptor is bound to one
    (OS, architecture), carries the image reference it was created with and
    a mutable environment mapping with unique keys. *)
Record containerImage : Type := {
  imageEngine : containerEngine;
  imageArch : Architecture;
  imageOS : string;
  imageRef : string;
  imageEnv : gmap string string
}.

Record options : Type := {
  WorkDir : string
}.

Record linux : Type := {
  Images : list containerImage;
  defaultContext : Context
}.

(** ** Effects *)

Inductive Event : Type :=
| CallNewCommonFlags
| CallFlagSetParse (args : list string)
| CallMakeDefaultContext (flags : CommonFlags) (args : list string)
| CallNewContainerEngine (ctx : Context)
| CallCreateContainerImage (arch : Architecture) (OS : string) (image : string)
| CallLogInfo (msg : string)
| CallPrepareIcon (ctx : Context) (image : containerImage)
| CallFyneRelease (ctx : Context) (image : containerImage)
| CallFynePackage (ctx : Context) (image : containerImage)
| CallRun (image : containerImage) (vol : volume_Volume) (opts : options)
          (cmdArgs : list string).

Abbreviation Trace := (list Event) (only parsing).

(** What [flagSet.Parse] leaves behind: the common flags as set from the
    command line, the values given to [-arch] (none when the flag is not
    supplied) and the remaining positional arguments ([flagSet.Args()]). *)
Record ParsedArgs : Type := {
  parsedCommon : CommonFlags;
  archValues : list string;
  positional : list string
}.

(** The collaborators of the command.  Each answer may depend on the calls
    made so far. *)
Record Host : Type := {
  GOARCH : string;
  host_newCommonFlags : Trace -> CommonFlags + error;
  host_flagSetParse : Trace -> CommonFlags -> list string -> ParsedArgs;
  host_makeDefaultContext : Trace -> CommonFlags -> list string -> Context + error;
  host_newContainerEngine : Trace -> Context -> containerEngine + error;
  host_prepareIcon : Trace -> Context -> containerImage -> option error;
  host_fyneRelease : Trace -> Context -> containerImage -> option error;
  host_fynePackage : Trace -> Context -> containerImage -> option error;
  host_Run : Trace -> containerImage -> volume_Volume -> options -> list string ->
             option error
}.

(** State monad over the trace of collaborator calls. *)
Definition M (A : Type) : Type := Trace -> A * Trace.

Definition ret {A : Type} (a : A) : M A := fun t => (a, t).

Definition bind {A B : Type} (m : M A) (k : A -> M B) : M B :=
  fun t => let (a, t') := m t in k a t'.

(** Perform the call [e]; its answer is computed from the calls made before. *)
Definition call {A : Type} (e : Event) (answer : Trace -> A) : M A :=
  fun t => (answer t, t ++ [e]).

Notation "x <~ c ;; k" := (bind c (fun x => k))
  (at level 100, c at next level, right associativity).

(** How a Go function ends: it returns, or it panics. *)
Inductive Completion (A : Type) : Type :=
| Returns (a : A)
| Panics (msg : string).
Arguments Returns {A} a.
Arguments Panics {A} msg.

(** ** Helpers declared outside linux.go *)

(** Modelled from the spec: volume.JoinPathContainer is declared in package
    volume; the layout contract is [<dir>/<descriptor-id>/<name>], the
    elements joined with the container's separator. *)
Fixpoint JoinPathContainer (elem : list string) : string :=
  match elem with
  | [] => ""
  | [e] => e
  | e :: rest => e +:+ "/" +:+ JoinPathContainer rest
  end.

(** Modelled from the spec: the descriptor identifier is declared with the
    container image type; it is a stable key derived from OS and
    architecture, unique per (OS, architecture). *)
Definition ID (image : containerImage) : string :=
  imageOS image +:+ "-" +:+ imageArch image.

(** Modelled from the spec: [setEnv(key, value)] on the descriptor's
    environment mapping (keys unique). *)
Definition SetEnv (image : containerImage) (key value : string) : containerImage :=
  {| imageEngine := imageEngine image;
     imageArch := imageArch image;
     imageOS := imageOS image;
     imageRef := imageRef image;
     imageEnv := <[key := value]> (imageEnv image) |}.

(** Modelled from the spec: the engine's factory; the descriptor is inert and
    its environment mapping is filled in during setup. *)
Definition createContainerImage (runner : containerEngine) (arch : Architecture)
    (OS : string) (image : string) : M containerImage :=
  call (CallCreateContainerImage arch OS image)
       (fun _ => {| imageEngine := runner; imageArch := arch; imageOS := OS;
                    imageRef := image; imageEnv := ∅ |}).

(** Modelled from the spec: a caller-supplied image reference takes
    precedence over the catalog default. *)
Definition overrideDockerImage (flags : CommonFlags) (image : string) : string :=
  if decide (DockerImage flags = "") then image else DockerImage flags.

(** Modelled from the spec: targetArchFromFlag is declared outside linux.go.
    It walks the requested tokens in order; a token outside the supported
    set fails with an error naming the token and the supported set; a
    supported token is appended unless it is already in the result. *)
Fixpoint targetArchFromFlagLoop (flag : list string) (supportedArch : list Architecture)
    (targetArch : list Architecture) : list Architecture + error :=
  match flag with
  | [] => inl targetArch
  | v :: rest =>
      if bool_decide (v ∈ supportedArch) then
        if bool_decide (v ∈ targetArch)
        then targetArchFromFlagLoop rest supportedArch targetArch
        else targetArchFromFlagLoop rest supportedArch (targetArch ++ [v])
      else inr (UnsupportedArchitecture v supportedArch)
  end.

Definition targetArchFromFlag (flag : targetArchFlag) (supportedArch : list Architecture)
    : list Architecture + error :=
  targetArchFromFlagLoop flag supportedArch [].

(** Modelled from the spec: the flag value is a comma-separated list of
    architecture names; [splitComma s cur] splits [s] at every comma, [cur]
    being the token read so far. *)
Fixpoint splitComma (s : string) (cur : string) : list string :=
  match s with
  | EmptyString => [cur]
  | String c s' =>
      if Ascii.eqb c ","%char then cur :: splitComma s' ""
      else splitComma s' (cur +:+ String c "")
  end.

(** Modelled from the spec: [targetArchFlag.Set], called by the flag set for
    a supplied [-arch] value; the value replaces the list held so far. *)
Definition targetArchFlag_Set (af : targetArchFlag) (value : string) : targetArchFlag :=
  splitComma value "".

(** ** linux.go *)

Section Linux.

Variable host : Host.

Definition newCommonFlags : M (CommonFlags + error) :=
  call CallNewCommonFlags (host_newCommonFlags host).

Definition flagSet_Parse (commonFlags : CommonFlags) (args : list string) : M ParsedArgs :=
  call (CallFlagSetParse args) (fun t => host_flagSetParse host t commonFlags args).

Definition makeDefaultContext (flags : CommonFlags) (args : list string)
    : M (Context + error) :=
  call (CallMakeDefaultContext flags args)
       (fun t => host_makeDefaultContext host t flags args).

Definition newContainerEngine (ctx : Context) : M (containerEngine + error) :=
  call (CallNewContainerEngine ctx) (fun t => host_newContainerEngine host t ctx).

Definition log_Info (msg : string) : M unit :=
  call (CallLogInfo msg) (fun _ => tt).

Definition prepareIcon (ctx : Context) (image : containerImage) : M (option error) :=
  call (CallPrepareIcon ctx image) (fun t => host_prepareIcon host t ctx image).

Definition fyneRelease (ctx : Context) (image : containerImage) : M (option error) :=
  call (CallFyneRelease ctx image) (fun t => host_fyneRelease host t ctx image).

Definition fynePackage (ctx : Context) (image : containerImage) : M (option error) :=
  call (CallFynePackage ctx image) (fun t => host_fynePackage host t ctx image).

Definition image_Run (image : containerImage) (vol : volume_Volume) (opts : options)
    (cmdArgs : list string) : M (option error) :=
  call (CallRun image vol opts cmdArgs) (fun t => host_Run host t image vol opts cmdArgs).

(** [NewLinuxCommand]: [&linux{}] *)
Definition NewLinuxCommand : linux :=
  {| Images := [];
     defaultContext :=
       {| Name := ""; Release := false;
          Volume := {| workDirHost := ""; workDirContainer := "";
                       tmpDirHost := ""; tmpDirContainer := "";
                       binDirHost := ""; binDirContainer := "" |} |} |}.

Definition linux_Name : string := "linux".

Definition Description : string :=
  "Build and package a fyne application for the linux OS".

(** [Build]: the result is the Go pair (name, err). *)
Definition Build (cmd : linux) (image : containerImage) : M (string * option error) :=
  err <~ prepareIcon (defaultContext cmd) image ;;
  match err with
  | Some err => ret ("", Some err)
  | None =>
    _ <~ log_Info "[i] Packaging app..." ;;
    let packageName := Name (defaultContext cmd) +:+ ".tar.xz" in
    err <~ (if Release (defaultContext cmd)
            then fyneRelease (defaultContext cmd) image
            else fynePackage (defaultContext cmd) image) ;;
    match err with
    | Some err => ret ("", Some (Errorf "could not package the Fyne app: " err))
    | None =>
      _ <~ image_Run image (Volume (defaultContext cmd)) {| WorkDir := "" |}
             ["mv";
              JoinPathContainer [WorkDirContainer (defaultContext cmd); packageName];
              JoinPathContainer [TmpDirContainer (defaultContext cmd); ID image;
                                 packageName]] ;;
      _ <~ image_Run image (Volume (defaultContext cmd))
             {| WorkDir := JoinPathContainer [BinDirContainer (defaultContext cmd);
                                              ID image] |}
             ["tar"; "-xf";
              JoinPathContainer [TmpDirContainer (defaultContext cmd); ID image;
                                 packageName];
              "--strip-components=3"; "usr/local/bin"] ;;
      ret (packageName, None)
    end
  end.

(** The [switch arch] of [setupContainerImages]; no case matches an
    architecture outside the four, and [image] stays nil ([None]). *)
Definition archSwitch (runner : containerEngine) (flags : linuxFlags)
    (arch : Architecture) : M (option containerImage) :=
  if decide (arch = ArchAmd64) then
    image <~ createContainerImage runner arch linuxOS
               (overrideDockerImage (linuxCommonFlags flags) linuxImageAmd64) ;;
    let image := SetEnv image "GOARCH" "amd64" in
    let image := SetEnv image "CC" "zig cc -target x86_64-linux-gnu -isystem /usr/include -L/usr/lib/x86_64-linux-gnu" in
    let image := SetEnv image "CXX" "zig c++ -target x86_64-linux-gnu -isystem /usr/include -L/usr/lib/x86_64-linux-gnu" in
    ret (Some image)
  else if decide (arch = Arch386) then
    image <~ createContainerImage runner arch linuxOS
               (overrideDockerImage (linuxCommonFlags flags) linuxImage386) ;;
    let image := SetEnv image "GOARCH" "386" in
    let image := SetEnv image "CC" "zig cc -target x86-linux-gnu -isystem /usr/include -L/usr/lib/i386-linux-gnu" in
    let image := SetEnv image "CXX" "zig c++ -target x86-linux-gnu -isystem /usr/include -L/usr/lib/i386-linux-gnu" in
    ret (Some image)
  else if decide (arch = ArchArm) then
    image <~ createContainerImage runner arch linuxOS
               (overrideDockerImage (linuxCommonFlags flags) linuxImageArm) ;;
    let image := SetEnv image "GOARCH" "arm" in
    let image := SetEnv image "GOARM" "7" in
    let image := SetEnv image "CC" "zig cc -target arm-linux-gnueabihf -isystem /usr/include -L/usr/lib/arm-linux-gnueabihf" in
    let image := SetEnv image "CXX" "zig c++ -target arm-linux-gnueabihf -isystem /usr/include -L/usr/lib/arm-linux-gnueabihf" in
    ret (Some image)
  else if decide (arch = ArchArm64) then
    image <~ createContainerImage runner arch linuxOS
               (overrideDockerImage (linuxCommonFlags flags) linuxImageArm64) ;;
    let image := SetEnv image "GOARCH" "arm64" in
    let image := SetEnv image "CC" "zig cc -target aarch64-linux-gnu -isystem /usr/include -L/usr/lib/aarch64-linux-gnu" in
    let image := SetEnv image "CXX" "zig c++ -target aarch64-linux-gnu -isystem /usr/include -L/usr/lib/aarch64-linux-gnu" in
    ret (Some image)
  else ret None.

(** [for _, arch := range targetArch { ... }]; [image.SetEnv] on a nil
    interface panics. *)
Fixpoint rangeTargetArch (runner : containerEngine) (flags : linuxFlags)
    (targetArch : list Architecture) (cmd : linux) : M (Completion linux) :=
  match targetArch with
  | [] => ret (Returns cmd)
  | arch :: rest =>
      image <~ archSwitch runner flags arch ;;
      match image with
      | None => ret (Panics "invalid memory address or nil pointer dereference")
      | Some image =>
          let image := SetEnv image "GOOS" "linux" in
          rangeTargetArch runner flags rest
            {| Images := Images cmd ++ [image];
               defaultContext := defaultContext cmd |}
      end
  end.

(** [setupContainerImages]: the command after the call and the returned
    error. *)
Definition setupContainerImages (cmd : linux) (flags : linuxFlags) (args : list string)
    : M (Completion (linux * option error)) :=
  match targetArchFromFlag (TargetArch flags) linuxArchSupported with
  | inr err =>
      ret (Returns (cmd, Some (Errorf ("could not make build context for " +:+ linuxOS
                                       +:+ " OS: ") err)))
  | inl targetArch =>
      r <~ makeDefaultContext (linuxCommonFlags flags) args ;;
      match r with
      | inr err => ret (Returns (cmd, Some err))
      | inl ctx =>
          let cmd := {| Images := Images cmd; defaultContext := ctx |} in
          r <~ newContainerEngine ctx ;;
          match r with
          | inr err => ret (Returns (cmd, Some err))
          | inl runner =>
              c <~ rangeTargetArch runner flags targetArch cmd ;;
              match c with
              | Panics msg => ret (Panics msg)
              | Returns cmd => ret (Returns (cmd, None))
              end
          end
      end
  end.

(** [Parse]: the [-arch] flag starts as the one-element list holding
    [runtime.GOARCH]; the flag set calls [Set] for every supplied value. *)
Definition Parse (cmd : linux) (args : list string)
    : M (Completion (linux * option error)) :=
  r <~ newCommonFlags ;;
  match r with
  | inr err => ret (Returns (cmd, Some err))
  | inl commonFlags =>
      let flags := {| linuxCommonFlags := commonFlags; TargetArch := [GOARCH host] |} in
      p <~ flagSet_Parse (linuxCommonFlags flags) args ;;
      let flags := {| linuxCommonFlags := parsedCommon p;
                      TargetArch := foldl targetArchFlag_Set (TargetArch flags)
                                          (archValues p) |} in
      setupContainerImages cmd flags (positional p)
  end.

End Linux.

(** ** Sample hosts and inputs *)

Definition demoFlags : CommonFlags :=
  {| AppName := "demo"; ReleaseFlag := false; DockerImage := "" |}.

Definition demoVolume : volume_Volume :=
  {| workDirHost := "/home/dev/demo"; workDirContainer := "/app";
     tmpDirHost := "/home/dev/demo/fyne-cross/tmp";
     tmpDirContainer := "/app/fyne-cross/tmp";
     binDirHost := "/home/dev/demo/fyne-cross/bin";
     binDirContainer := "/app/fyne-cross/bin" |}.

Definition demoContext : Context :=
  {| Name := "demo"; Release := false; Volume := demoVolume |}.

Definition demoEngine : containerEngine := {| engineName := "docker" |}.

(** Every collaborator succeeds; the command line carries the [-arch] values
    [arch]. *)
Definition quietHost (goarch : string) (arch : list string) : Host :=
  {| GOARCH := goarch;
     host_newCommonFlags := fun _ => inl demoFlags;
     host_flagSetParse := fun _ common args =>
       {| parsedCommon := common; archValues := arch; positional := args |};
     host_makeDefaultContext := fun _ _ _ => inl demoContext;
     host_newContainerEngine := fun _ _ => inl demoEngine;
     host_prepareIcon := fun _ _ _ => None;
     host_fyneRelease := fun _ _ _ => None;
     host_fynePackage := fun _ _ _ => None;
     host_Run := fun _ _ _ _ _ => None |}.

(** As [quietHost], but every command run in the container exits non-zero. *)
Definition brokenRunHost : Host :=
  {| GOARCH := "amd64";
     host_newCommonFlags := fun _ => inl demoFlags;
     host_flagSetParse := fun _ common args =>
       {| parsedCommon := common; archValues := []; positional := args |};
     host_makeDefaultContext := fun _ _ _ => inl demoContext;
     host_newContainerEngine := fun _ _ => inl demoEngine;
     host_prepareIcon := fun _ _ _ => None;
     host_fyneRelease := fun _ _ _ => None;
     host_fynePackage := fun _ _ _ => None;
     host_Run := fun _ _ _ _ _ => Some (CollaboratorError "exit status 1") |}.

(** As [quietHost], but the packaging tool exits non-zero. *)
Definition brokenPackageHost : Host :=
  {| GOARCH := "amd64";
     host_newCommonFlags := fun _ => inl demoFlags;
     host_flagSetParse := fun _ common args =>
       {| parsedCommon := common; archValues := []; positional := args |};
     host_makeDefaultContext := fun _ _ _ => inl demoContext;
     host_newContainerEngine := fun _ _ => inl demoEngine;
     host_prepareIcon := fun _ _ _ => None;
     host_fyneRelease := fun _ _ _ => Some (CollaboratorError "exit status 2");
     host_fynePackage := fun _ _ _ => Some (CollaboratorError "exit status 2");
     host_Run := fun _ _ _ _ _ => None |}.

Definition demoCommand : linux :=
  {| Images := []; defaultContext := demoContext |}.

Definition demoImage : containerImage :=
  {| imageEngine := demoEngine; imageArch := ArchAmd64; imageOS := linuxOS;
     imageRef := linuxImageAmd64;
     imageEnv := <["GOOS" := "linux"]> (<["GOARCH" := "amd64"]> ∅) |}.

(** ** The pipeline steps of [Build], as events *)

Definition packagingCall (cmd : linux) (image : containerImage) : Event :=
  if Release (defaultContext cmd)
  then CallFyneRelease (defaultContext cmd) image
  else CallFynePackage (defaultContext cmd) image.

Definition packagingAnswer (host : Host) (t : Trace) (cmd : linux)
    (image : containerImage) : option error :=
  if Release (defaultContext cmd)
  then host_fyneRelease host t (defaultContext cmd) image
  else host_fynePackage host t (defaultContext cmd) image.

Definition archiveName (cmd : linux) : string :=
  Name (defaultContext cmd) +:+ ".tar.xz".

Definition stagingPath (cmd : linux) (image : containerImage) : string :=
  TmpDirContainer (defaultContext cmd) +:+ "/" +:+ ID image +:+ "/" +:+ archiveName cmd.

Definition binOutputPath (cmd : linux) (image : containerImage) : string :=
  BinDirContainer (defaultContext cmd) +:+ "/" +:+ ID image.

Definition relocateCall (cmd : linux) (image : containerImage) : Event :=
  CallRun image (Volume (defaultContext cmd)) {| WorkDir := "" |}
    ["mv"; WorkDirContainer (defaultContext cmd) +:+ "/" +:+ archiveName cmd;
     stagingPath cmd image].

Definition extractCall (cmd : linux) (image : containerImage) : Event :=
  CallRun image (Volume (defaultContext cmd)) {| WorkDir := binOutputPath cmd image |}
    ["tar"; "-xf"; stagingPath cmd image; "--strip-components=3"; "usr/local/bin"].

Definition isRun (e : Event) : bool :=
  match e with
  | CallRun _ _ _ _ => true
  | _ => false
  end.

(** ** Notions used to state the properties *)

(** The request order with duplicates removed: every token stays at the
    place of its first occurrence. *)
Fixpoint dedupFirst (l : list string) : list string :=
  match l with
  | [] => []
  | x :: rest => x :: filter (λ y, y ≠ x) (dedupFirst rest)
  end.

(** The catalog default image of an architecture. *)
Definition linuxImage (arch : Architecture) : string :=
  if decide (arch = ArchAmd64) then linuxImageAmd64
  else if decide (arch = Arch386) then linuxImage386
  else if decide (arch = ArchArm) then linuxImageArm
  else linuxImageArm64.

Definition createCall (flags : linuxFlags) (arch : Architecture) : Event :=
  CallCreateContainerImage arch linuxOS
    (overrideDockerImage (linuxCommonFlags flags) (linuxImage arch)).

(** The descriptor as the switch leaves it, before the final [SetEnv]. *)
Definition archImage (runner : containerEngine) (flags : linuxFlags)
    (arch : Architecture) : option containerImage :=
  fst (archSwitch runner flags arch []).

(** The descriptor as one iteration of the loop appends it. *)
Definition setupImage (runner : containerEngine) (flags : linuxFlags)
    (arch : Architecture) : option containerImage :=
  (λ image, SetEnv image "GOOS" "linux") <$> archImage runner flags arch.

(** The error [setupContainerImages] returns for the unsupported token [tok]. *)
Definition unsupportedError (tok : string) : error :=
  Errorf "could not make build context for linux OS: "
         (UnsupportedArchitecture tok linuxArchSupported).

(** The entries of the descriptor's environment mapping under [key]. *)
Definition envEntries (image : containerImage) (key : string) : list (string * string) :=
  filter (λ kv, kv.1 = key) (map_to_list (imageEnv image)).

(** A run of the setup on a request that names amd64 twice. *)
Definition demoSetupFlags : linuxFlags :=
  {| linuxCommonFlags := demoFlags; TargetArch := ["amd64"; "arm"; "amd64"] |}.

Definition demoArmImage : containerImage :=
  SetEnv (SetEnv (SetEnv (SetEnv (SetEnv
    {| imageEngine := demoEngine; imageArch := "arm"; imageOS := "linux";
       imageRef := linuxImageArm; imageEnv := ∅ |}
    "GOARCH" "arm") "GOARM" "7")
    "CC" "zig cc -target arm-linux-gnueabihf -isystem /usr/include -L/usr/lib/arm-linux-gnueabihf")
    "CXX" "zig c++ -target arm-linux-gnueabihf -isystem /usr/include -L/usr/lib/arm-linux-gnueabihf")
    "GOOS" "linux".

Definition demoAmd64Image : containerImage :=
  SetEnv (SetEnv (SetEnv (SetEnv
    {| imageEngine := demoEngine; imageArch := "amd64"; imageOS := "linux";
       imageRef := linuxImageAmd64; imageEnv := ∅ |}
    "GOARCH" "amd64")
    "CC" "zig cc -target x86_64-linux-gnu -isystem /usr/include -L/usr/lib/x86_64-linux-gnu")
    "CXX" "zig c++ -target x86_64-linux-gnu -isystem /usr/include -L/usr/lib/x86_64-linux-gnu")
    "GOOS" "linux".

Definition demoSetupCommand : linux :=
  {| Images := [demoAmd64Image; demoArmImage]; defaultContext := demoContext |}.

Definition demoSetupTrace : list Event :=
  [CallMakeDefaultContext demoFlags ["./cmd/demo"]; CallNewContainerEngine demoContext;
   CallCreateContainerImage "amd64" "linux" linuxImageAmd64;
   CallCreateContainerImage "arm" "linux" linuxImageArm].

(** ** Scripted hosts *)

(** A host whose collaborators give fixed answers: [flagsR] for
    newCommonFlags, the [-arch] values [arch], [ctxR] for makeDefaultContext,
    [engR] for newContainerEngine, [iconR] for prepareIcon, [pkgR] for both
    packaging modes and [runR] for every container command. *)
Definition scriptedHost (goarch : string) (flagsR : CommonFlags + error)
    (arch : list string) (ctxR : Context + error) (engR : containerEngine + error)
    (iconR pkgR runR : option error) : Host :=
  {| GOARCH := goarch;
     host_newCommonFlags := fun _ => flagsR;
     host_flagSetParse := fun _ common args =>
       {| parsedCommon := common; archValues := arch; positional := args |};
     host_makeDefaultContext := fun _ _ _ => ctxR;
     host_newContainerEngine := fun _ _ => engR;
     host_prepareIcon := fun _ _ _ => iconR;
     host_fyneRelease := fun _ _ _ => pkgR;
     host_fynePackage := fun _ _ _ => pkgR;
     host_Run := fun _ _ _ _ _ => runR |}.

Definition releaseCommand : linux :=
  {| Images := [];
     defaultContext := {| Name := "demo"; Release := true; Volume := demoVolume |} |}.

(** The five calls of a complete pipeline, in the order [Build] makes them. *)
Definition pipelineCalls (cmd : linux) (image : containerImage) : list Event :=
  [CallPrepareIcon (defaultContext cmd) image; CallLogInfo "[i] Packaging app...";
   packagingCall cmd image; relocateCall cmd image; extractCall cmd image].

Definition isCreate (e : Event) : bool :=
  match e with
  | CallCreateContainerImage _ _ _ => true
  | _ => false
  end.


(** ** Build *)

Lemma Build_prepareIcon_fails host cmd image t err :
  host_prepareIcon host t (defaultContext cmd) image = Some err ->
  Build host cmd image t
  = (("", Some err), t ++ [CallPrepareIcon (defaultContext cmd) image]).
Proof.
  intros Hicon. unfold Build, bind, prepareIcon, call, ret. by rewrite Hicon.
Qed.

Lemma Build_packaging_fails host cmd image t err :
  host_prepareIcon host t (defaultContext cmd) image = None ->
  packagingAnswer host
    (t ++ [CallPrepareIcon (defaultContext cmd) image;
           CallLogInfo "[i] Packaging app..."]) cmd image = Some err ->
  Build host cmd image t
  = (("", Some (Errorf "could not package the Fyne app: " err)),
     t ++ [CallPrepareIcon (defaultContext cmd) image;
           CallLogInfo "[i] Packaging app..."; packagingCall cmd image]).
Proof.
  intros Hicon Hpkg.
  unfold Build, bind, prepareIcon, log_Info, fyneRelease, fynePackage, call, ret.
  rewrite Hicon. unfold packagingAnswer, packagingCall in *.
  rewrite <- !app_assoc. simpl.
  destruct (Release (defaultContext cmd)); rewrite Hpkg, <- !app_assoc; done.
Qed.

Lemma Build_packaging_succeeds host cmd image t :
  host_prepareIcon host t (defaultContext cmd) image = None ->
  packagingAnswer host
    (t ++ [CallPrepareIcon (defaultContext cmd) image;
           CallLogInfo "[i] Packaging app..."]) cmd image = None ->
  Build host cmd image t
  = ((archiveName cmd, None),
     t ++ [CallPrepareIcon (defaultContext cmd) image;
           CallLogInfo "[i] Packaging app..."; packagingCall cmd image;
           relocateCall cmd image; extractCall cmd image]).
Proof.
  intros Hicon Hpkg.
  unfold Build, bind, prepareIcon, log_Info, fyneRelease, fynePackage, image_Run,
    call, ret.
  rewrite Hicon. unfold packagingAnswer, packagingCall in *.
  rewrite <- !app_assoc. simpl.
  destruct (Release (defaultContext cmd)) eqn:Hrel; rewrite Hpkg, <- !app_assoc;
    simpl; unfold relocateCall, extractCall, stagingPath, binOutputPath, archiveName;
    rewrite ?Hrel; done.
Qed.

(** ** Target resolution *)

Lemma filter_ne_not_elem_of (x : string) (l : list string) :
  x ∉ l -> filter (λ y, y ≠ x) l = l.
Proof.
  induction l as [|y l IH]; intros Hx; [done|].
  apply not_elem_of_cons in Hx as [Hxy Hx].
  rewrite filter_cons_True by done. by rewrite IH.
Qed.

Lemma elem_of_dedupFirst (l : list string) x : x ∈ dedupFirst l ↔ x ∈ l.
Proof.
  induction l as [|y l IH]; simpl; [done|].
  rewrite !elem_of_cons, list_elem_of_filter, IH.
  destruct (decide (x = y)) as [->|Hne]; [by split; auto|].
  split; [intros [?|[_ ?]]; auto|intros [?|?]; auto].
Qed.

Lemma NoDup_dedupFirst (l : list string) : NoDup (dedupFirst l).
Proof.
  induction l as [|y l IH]; simpl; [constructor|].
  apply NoDup_cons. split.
  - rewrite list_elem_of_filter. intros [Hne _]. by apply Hne.
  - by apply NoDup_filter.
Qed.

Lemma dedupFirst_sublist (l : list string) : dedupFirst l `sublist_of` l.
Proof.
  induction l as [|y l IH]; simpl; [done|].
  apply sublist_skip. etrans; [apply sublist_filter; apply _|done].
Qed.

Lemma dedupFirst_NoDup_id (l : list string) : NoDup l -> dedupFirst l = l.
Proof.
  induction 1 as [|x l Hx Hl IH]; simpl; [done|].
  rewrite IH. f_equal. by apply filter_ne_not_elem_of.
Qed.

Lemma targetArchFromFlagLoop_supported flag (supportedArch targetArch : list string) :
  Forall (λ v, v ∈ supportedArch) flag ->
  targetArchFromFlagLoop flag supportedArch targetArch
  = inl (targetArch ++ filter (λ x, x ∉ targetArch) (dedupFirst flag)).
Proof.
  intros Hall. revert targetArch.
  induction Hall as [|v rest Hv Hrest IH]; intros targetArch; simpl.
  { by rewrite filter_nil, app_nil_r. }
  rewrite bool_decide_eq_true_2 by done.
  case_bool_decide as Hseen.
  - rewrite IH. do 2 f_equal.
    rewrite filter_cons_False by (intros Hn; by apply Hn).
    symmetry. apply list_filter_filter_l. intros x Hx ->. by apply Hx.
  - rewrite IH, <- app_assoc. simpl. do 2 f_equal.
    rewrite filter_cons_True by done. f_equal.
    rewrite list_filter_filter. apply list_filter_iff. intros x.
    rewrite not_elem_of_app, not_elem_of_cons. split.
    + intros [? [? _]]; auto.
    + intros [? ?]. split_and!; auto. apply not_elem_of_nil.
Qed.

Lemma targetArchFromFlagLoop_unsupported flag (supportedArch targetArch : list string) :
  ¬ Forall (λ v, v ∈ supportedArch) flag ->
  ∃ pre tok post,
    flag = pre ++ tok :: post ∧ Forall (λ v, v ∈ supportedArch) pre ∧
    (tok ∉ supportedArch) ∧
    targetArchFromFlagLoop flag supportedArch targetArch
    = inr (UnsupportedArchitecture tok supportedArch).
Proof.
  revert targetArch. induction flag as [|v rest IH]; intros targetArch Hnot.
  { destruct Hnot. constructor. }
  simpl. case_bool_decide as Hv.
  - assert (Hrest : ¬ Forall (λ v, v ∈ supportedArch) rest).
    { intros Hall. apply Hnot. by constructor. }
    case_bool_decide as Hseen.
    + destruct (IH targetArch Hrest) as (pre & tok & post & -> & Hpre & Htok & Heq).
      exists (v :: pre), tok, post. split_and!; [done|by constructor|done|done].
    + destruct (IH (targetArch ++ [v]) Hrest)
        as (pre & tok & post & -> & Hpre & Htok & Heq).
      exists (v :: pre), tok, post. split_and!; [done|by constructor|done|done].
  - exists [], v, rest. split_and!; [done|constructor|done|done].
Qed.

Lemma targetArchFromFlag_supported flag (supportedArch : list string) :
  Forall (λ v, v ∈ supportedArch) flag ->
  targetArchFromFlag flag supportedArch = inl (dedupFirst flag).
Proof.
  intros Hall. unfold targetArchFromFlag.
  rewrite targetArchFromFlagLoop_supported by done. simpl. f_equal.
  induction (dedupFirst flag) as [|x l IH]; [done|].
  rewrite filter_cons_True by apply not_elem_of_nil. by rewrite IH.
Qed.

Lemma targetArchFromFlag_inl flag (supportedArch targetArch : list string) :
  targetArchFromFlag flag supportedArch = inl targetArch ->
  Forall (λ v, v ∈ supportedArch) flag ∧ targetArch = dedupFirst flag.
Proof.
  intros Heq.
  destruct (decide (Forall (λ v, v ∈ supportedArch) flag)) as [Hall|Hnot].
  - split; [done|]. rewrite targetArchFromFlag_supported in Heq by done. congruence.
  - destruct (targetArchFromFlagLoop_unsupported flag supportedArch [] Hnot)
      as (? & ? & ? & _ & _ & _ & Herr).
    unfold targetArchFromFlag in Heq. congruence.
Qed.

(** ** Descriptor setup *)

Lemma elem_of_linuxArchSupported (arch : string) :
  arch ∈ linuxArchSupported ↔
  arch = ArchAmd64 ∨ arch = Arch386 ∨ arch = ArchArm ∨ arch = ArchArm64.
Proof.
  unfold linuxArchSupported. rewrite !elem_of_cons, elem_of_nil. tauto.
Qed.

Ltac arch_cases H :=
  apply elem_of_linuxArchSupported in H as [ -> | [ -> | [ -> | -> ] ] ].

Lemma archSwitch_supported runner flags (arch : string) t :
  arch ∈ linuxArchSupported ->
  ∃ image,
    archSwitch runner flags arch t = (Some image, t ++ [createCall flags arch]) ∧
    archImage runner flags arch = Some image ∧
    imageEngine image = runner ∧ imageArch image = arch ∧ imageOS image = linuxOS ∧
    imageRef image = overrideDockerImage (linuxCommonFlags flags) (linuxImage arch).
Proof.
  intros Harch. arch_cases Harch; eexists; split_and!; reflexivity.
Qed.

Lemma archSwitch_unsupported runner flags (arch : string) t :
  arch ∉ linuxArchSupported ->
  archSwitch runner flags arch t = (None, t).
Proof.
  rewrite elem_of_linuxArchSupported. intros Harch.
  unfold archSwitch. repeat case_decide; tauto.
Qed.

Lemma rangeTargetArch_supported runner flags (targetArch : list string) cmd t :
  Forall (λ v, v ∈ linuxArchSupported) targetArch ->
  ∃ images,
    Forall2 (λ arch image, setupImage runner flags arch = Some image) targetArch images ∧
    rangeTargetArch runner flags targetArch cmd t
    = (Returns {| Images := Images cmd ++ images;
                  defaultContext := defaultContext cmd |},
       t ++ (createCall flags <$> targetArch)).
Proof.
  intros Hall. revert cmd t.
  induction Hall as [|arch rest Harch Hrest IH]; intros cmd t.
  { exists []. split; [constructor|]. simpl. rewrite !app_nil_r. by destruct cmd. }
  destruct (archSwitch_supported runner flags arch t Harch)
    as (image & Hsw & Him & _).
  destruct (IH {| Images := Images cmd ++ [SetEnv image "GOOS" "linux"];
                  defaultContext := defaultContext cmd |}
               (t ++ [createCall flags arch])) as (images & Himages & Hrange).
  exists (SetEnv image "GOOS" "linux" :: images). split.
  - constructor; [|done]. unfold setupImage. by rewrite Him.
  - cbn [rangeTargetArch]. unfold bind at 1. rewrite Hsw, Hrange. simpl.
    by rewrite <- !app_assoc.
Qed.

Lemma Forall_dedupFirst (P : string -> Prop) (l : list string) :
  Forall P l -> Forall P (dedupFirst l).
Proof.
  rewrite !Forall_forall. intros HP x Hx. apply HP. by apply elem_of_dedupFirst.
Qed.

Lemma setupContainerImages_unsupported host cmd flags args t :
  ¬ Forall (λ v, v ∈ linuxArchSupported) (TargetArch flags) ->
  ∃ pre tok post,
    TargetArch flags = pre ++ tok :: post ∧
    Forall (λ v, v ∈ linuxArchSupported) pre ∧
    (tok ∉ linuxArchSupported) ∧
    setupContainerImages host cmd flags args t
    = (Returns (cmd, Some (unsupportedError tok)), t).
Proof.
  intros Hnot.
  destruct (targetArchFromFlagLoop_unsupported _ linuxArchSupported [] Hnot)
    as (pre & tok & post & Hflag & Hpre & Htok & Herr).
  exists pre, tok, post. split_and!; [done..|].
  unfold setupContainerImages, targetArchFromFlag. by rewrite Herr.
Qed.

Lemma setupContainerImages_context_fails host cmd flags args t err :
  Forall (λ v, v ∈ linuxArchSupported) (TargetArch flags) ->
  host_makeDefaultContext host t (linuxCommonFlags flags) args = inr err ->
  setupContainerImages host cmd flags args t
  = (Returns (cmd, Some err),
     t ++ [CallMakeDefaultContext (linuxCommonFlags flags) args]).
Proof.
  intros Hall Hctx. unfold setupContainerImages.
  rewrite targetArchFromFlag_supported by done.
  unfold bind, makeDefaultContext, call, ret. by rewrite Hctx.
Qed.

Lemma setupContainerImages_engine_fails host cmd flags args t ctx err :
  Forall (λ v, v ∈ linuxArchSupported) (TargetArch flags) ->
  host_makeDefaultContext host t (linuxCommonFlags flags) args = inl ctx ->
  host_newContainerEngine host
    (t ++ [CallMakeDefaultContext (linuxCommonFlags flags) args]) ctx = inr err ->
  setupContainerImages host cmd flags args t
  = (Returns ({| Images := Images cmd; defaultContext := ctx |}, Some err),
     t ++ [CallMakeDefaultContext (linuxCommonFlags flags) args;
           CallNewContainerEngine ctx]).
Proof.
  intros Hall Hctx Heng. unfold setupContainerImages.
  rewrite targetArchFromFlag_supported by done.
  unfold bind, makeDefaultContext, newContainerEngine, call, ret.
  rewrite Hctx, Heng, <- app_assoc. done.
Qed.

Lemma setupContainerImages_succeeds host cmd flags args t ctx runner :
  Forall (λ v, v ∈ linuxArchSupported) (TargetArch flags) ->
  host_makeDefaultContext host t (linuxCommonFlags flags) args = inl ctx ->
  host_newContainerEngine host
    (t ++ [CallMakeDefaultContext (linuxCommonFlags flags) args]) ctx = inl runner ->
  ∃ images,
    Forall2 (λ arch image, setupImage runner flags arch = Some image)
            (dedupFirst (TargetArch flags)) images ∧
    setupContainerImages host cmd flags args t
    = (Returns ({| Images := Images cmd ++ images; defaultContext := ctx |}, None),
       t ++ [CallMakeDefaultContext (linuxCommonFlags flags) args;
             CallNewContainerEngine ctx]
         ++ (createCall flags <$> dedupFirst (TargetArch flags))).
Proof.
  intros Hall Hctx Heng.
  destruct (rangeTargetArch_supported runner flags (dedupFirst (TargetArch flags))
              {| Images := Images cmd; defaultContext := ctx |}
              (t ++ [CallMakeDefaultContext (linuxCommonFlags flags) args;
                     CallNewContainerEngine ctx]))
    as (images & Himages & Hrange); [by apply Forall_dedupFirst|].
  exists images. split; [done|].
  unfold setupContainerImages. rewrite targetArchFromFlag_supported by done.
  unfold bind, makeDefaultContext, newContainerEngine, call, ret.
  rewrite Hctx, Heng, <- app_assoc. simpl. rewrite Hrange. simpl.
  by rewrite <- !app_assoc.
Qed.

(** Every way [setupContainerImages] can end without an error. *)
Lemma setupContainerImages_inv host cmd flags args t cmd' t' :
  setupContainerImages host cmd flags args t = (Returns (cmd', None), t') ->
  ∃ ctx runner images,
    Forall (λ v, v ∈ linuxArchSupported) (TargetArch flags) ∧
    host_makeDefaultContext host t (linuxCommonFlags flags) args = inl ctx ∧
    host_newContainerEngine host
      (t ++ [CallMakeDefaultContext (linuxCommonFlags flags) args]) ctx = inl runner ∧
    Forall2 (λ arch image, setupImage runner flags arch = Some image)
            (dedupFirst (TargetArch flags)) images ∧
    cmd' = {| Images := Images cmd ++ images; defaultContext := ctx |} ∧
    t' = t ++ [CallMakeDefaultContext (linuxCommonFlags flags) args;
               CallNewContainerEngine ctx]
           ++ (createCall flags <$> dedupFirst (TargetArch flags)).
Proof.
  intros Hrun.
  destruct (decide (Forall (λ v, v ∈ linuxArchSupported) (TargetArch flags)))
    as [Hall|Hnot]; cycle 1.
  { destruct (setupContainerImages_unsupported host cmd flags args t Hnot)
      as (? & ? & ? & _ & _ & _ & Herr). congruence. }
  destruct (host_makeDefaultContext host t (linuxCommonFlags flags) args)
    as [ctx|err] eqn:Hctx; cycle 1.
  { rewrite (setupContainerImages_context_fails _ _ _ _ _ err) in Hrun by done.
    congruence. }
  destruct (host_newContainerEngine host
              (t ++ [CallMakeDefaultContext (linuxCommonFlags flags) args]) ctx)
    as [runner|err] eqn:Heng; cycle 1.
  { rewrite (setupContainerImages_engine_fails _ _ _ _ _ ctx err) in Hrun by done.
    congruence. }
  destruct (setupContainerImages_succeeds host cmd flags args t ctx runner
              Hall Hctx Heng) as (images & Himages & Heq).
  rewrite Heq in Hrun. exists ctx, runner, images.
  split_and!; try done; congruence.
Qed.


(** ** Strings *)

Lemma length_append (a b : string) :
  String.length (a +:+ b) = String.length a + String.length b.
Proof. induction a as [|c a IH]; simpl; [done|]. by rewrite IH. Qed.

Lemma append_cancel_r (a b s : string) : a +:+ s = b +:+ s -> a = b.
Proof.
  revert b. induction a as [|c a IH]; intros [|d b] Heq.
  - done.
  - apply (f_equal String.length) in Heq.
    rewrite !length_append in Heq. cbn [String.length] in Heq. lia.
  - apply (f_equal String.length) in Heq.
    rewrite !length_append in Heq. cbn [String.length] in Heq. lia.
  - simpl in Heq. injection Heq as -> Heq. f_equal. by apply IH.
Qed.

Lemma append_cancel_l (s a b : string) : s +:+ a = s +:+ b -> a = b.
Proof. induction s as [|c s IH]; simpl; intros Heq; [done|]. injection Heq. auto. Qed.

Lemma ID_inj (a b : containerImage) :
  imageOS a = imageOS b -> ID a = ID b -> imageArch a = imageArch b.
Proof.
  unfold ID. intros -> Heq.
  apply append_cancel_l in Heq. by apply append_cancel_l in Heq.
Qed.

Lemma stagingPath_inj cmd (a b : containerImage) :
  stagingPath cmd a = stagingPath cmd b -> ID a = ID b.
Proof.
  unfold stagingPath. intros Heq.
  do 2 apply append_cancel_l in Heq. by apply append_cancel_r in Heq.
Qed.

Lemma binOutputPath_inj cmd (a b : containerImage) :
  binOutputPath cmd a = binOutputPath cmd b -> ID a = ID b.
Proof.
  unfold binOutputPath. intros Heq. by do 2 apply append_cancel_l in Heq.
Qed.

(** ** Build: what it returns and what it runs *)

Lemma Build_success_name host cmd image t name t' :
  Build host cmd image t = ((name, None), t') -> name = archiveName cmd.
Proof.
  intros Hrun.
  destruct (host_prepareIcon host t (defaultContext cmd) image) as [err|] eqn:Hicon.
  { rewrite (Build_prepareIcon_fails _ _ _ _ err) in Hrun by done. congruence. }
  destruct (packagingAnswer host
              (t ++ [CallPrepareIcon (defaultContext cmd) image;
                     CallLogInfo "[i] Packaging app..."]) cmd image)
    as [err|] eqn:Hpkg.
  { rewrite (Build_packaging_fails _ _ _ _ err) in Hrun by done. congruence. }
  rewrite Build_packaging_succeeds in Hrun by done. congruence.
Qed.

Lemma packagingCall_not_Run cmd image : isRun (packagingCall cmd image) = false.
Proof. unfold packagingCall. by destruct (Release (defaultContext cmd)). Qed.

(** The only container commands [Build] runs are the relocation and the
    extraction. *)
Lemma Build_Run_events host cmd image e :
  e ∈ snd (Build host cmd image []) -> isRun e = true ->
  e = relocateCall cmd image ∨ e = extractCall cmd image.
Proof.
  destruct (host_prepareIcon host [] (defaultContext cmd) image) as [err|] eqn:Hicon.
  { rewrite (Build_prepareIcon_fails _ _ _ _ err) by done. simpl.
    rewrite list_elem_of_singleton. by intros ->. }
  destruct (packagingAnswer host
              ([] ++ [CallPrepareIcon (defaultContext cmd) image;
                      CallLogInfo "[i] Packaging app..."]) cmd image)
    as [err|] eqn:Hpkg.
  { rewrite (Build_packaging_fails _ _ _ _ err) by done. simpl.
    rewrite !elem_of_cons, elem_of_nil. intros [->|[->|[->|[]]]]; try done.
    by rewrite packagingCall_not_Run. }
  rewrite Build_packaging_succeeds by done. simpl.
  rewrite !elem_of_cons, elem_of_nil.
  intros [->|[->|[->|[->|[->|[]]]]]]; try done; auto.
  by rewrite packagingCall_not_Run.
Qed.

(** C1 (the code departs from the claim): the relocation and the extraction
    both fail in the container, the host answers each [image.Run] with an
    error, and [Build] still returns the archive name with a nil error: the
    failure of steps 3 and 4 does not reach the caller. *)
Theorem Build_swallows_Run_failure :
  host_Run brokenRunHost
    [CallPrepareIcon demoContext demoImage; CallLogInfo "[i] Packaging app...";
     CallFynePackage demoContext demoImage]
    demoImage demoVolume {| WorkDir := "" |}
    ["mv"; "/app/demo.tar.xz"; "/app/fyne-cross/tmp/linux-amd64/demo.tar.xz"]
  = Some (CollaboratorError "exit status 1") ∧
  host_Run brokenRunHost
    [CallPrepareIcon demoContext demoImage; CallLogInfo "[i] Packaging app...";
     CallFynePackage demoContext demoImage; relocateCall demoCommand demoImage]
    demoImage demoVolume {| WorkDir := "/app/fyne-cross/bin/linux-amd64" |}
    ["tar"; "-xf"; "/app/fyne-cross/tmp/linux-amd64/demo.tar.xz";
     "--strip-components=3"; "usr/local/bin"]
  = Some (CollaboratorError "exit status 1") ∧
  Build brokenRunHost demoCommand demoImage []
  = (("demo.tar.xz", None),
     [CallPrepareIcon demoContext demoImage; CallLogInfo "[i] Packaging app...";
      CallFynePackage demoContext demoImage;
      CallRun demoImage demoVolume {| WorkDir := "" |}
        ["mv"; "/app/demo.tar.xz"; "/app/fyne-cross/tmp/linux-amd64/demo.tar.xz"];
      CallRun demoImage demoVolume {| WorkDir := "/app/fyne-cross/bin/linux-amd64" |}
        ["tar"; "-xf"; "/app/fyne-cross/tmp/linux-amd64/demo.tar.xz";
         "--strip-components=3"; "usr/local/bin"]]).
Proof.
  split_and!; [reflexivity..|].
  rewrite Build_packaging_succeeds by reflexivity. reflexivity.
Qed.

(** C2: when the packaging step (fyneRelease if the context's release flag
    is set, fynePackage otherwise) returns an error, [Build] returns that
    error wrapped as a packaging failure, and the calls it made are the
    icon preparation, the log line and the packaging call: no container
    command is run, so neither relocation nor extraction is attempted. *)
Theorem Build_packaging_failure host cmd image t err :
  host_prepareIcon host t (defaultContext cmd) image = None ->
  (if Release (defaultContext cmd)
   then host_fyneRelease host
          (t ++ [CallPrepareIcon (defaultContext cmd) image;
                 CallLogInfo "[i] Packaging app..."]) (defaultContext cmd) image
   else host_fynePackage host
          (t ++ [CallPrepareIcon (defaultContext cmd) image;
                 CallLogInfo "[i] Packaging app..."]) (defaultContext cmd) image)
  = Some err ->
  ∃ calls,
    Build host cmd image t
    = (("", Some (Errorf "could not package the Fyne app: " err)), t ++ calls) ∧
    calls = [CallPrepareIcon (defaultContext cmd) image;
             CallLogInfo "[i] Packaging app...";
             if Release (defaultContext cmd)
             then CallFyneRelease (defaultContext cmd) image
             else CallFynePackage (defaultContext cmd) image] ∧
    Forall (λ e, isRun e = false) calls.
Proof.
  intros Hicon Hpkg. eexists. split; [|split; [reflexivity|]].
  - by apply Build_packaging_fails.
  - repeat constructor. by destruct (Release (defaultContext cmd)).
Qed.

Lemma Build_packaging_failure_witness :
  ∃ calls,
    Build brokenPackageHost demoCommand demoImage []
    = (("", Some (Errorf "could not package the Fyne app: "
                         (CollaboratorError "exit status 2"))), [] ++ calls) ∧
    calls = [CallPrepareIcon demoContext demoImage;
             CallLogInfo "[i] Packaging app...";
             CallFynePackage demoContext demoImage] ∧
    Forall (λ e, isRun e = false) calls.
Proof.
  apply (Build_packaging_failure brokenPackageHost demoCommand demoImage []
           (CollaboratorError "exit status 2")); reflexivity.
Defined.

(** C7: the name a successful [Build] returns is the application name
    followed by ".tar.xz"; it depends on nothing else, so two successful
    runs for the same command and descriptor return the same name, whatever
    the collaborators answered and whatever was run before. *)
Theorem Build_archive_name cmd image host1 t1 name1 t1' host2 t2 name2 t2' :
  Build host1 cmd image t1 = ((name1, None), t1') ->
  Build host2 cmd image t2 = ((name2, None), t2') ->
  name1 = Name (defaultContext cmd) +:+ ".tar.xz" ∧ name2 = name1.
Proof.
  intros H1 H2.
  apply Build_success_name in H1. apply Build_success_name in H2.
  by subst.
Qed.

Lemma Build_archive_name_witness :
  "demo.tar.xz" = Name (defaultContext demoCommand) +:+ ".tar.xz" ∧
  "demo.tar.xz" = "demo.tar.xz".
Proof.
  apply (Build_archive_name demoCommand demoImage
           (quietHost "amd64" []) [] "demo.tar.xz"
           (snd (Build (quietHost "amd64" []) demoCommand demoImage []))
           brokenRunHost [CallLogInfo "earlier run"] "demo.tar.xz"
           (snd (Build brokenRunHost demoCommand demoImage
                   [CallLogInfo "earlier run"]))).
  - rewrite Build_packaging_succeeds by reflexivity. reflexivity.
  - rewrite Build_packaging_succeeds by reflexivity. reflexivity.
Defined.

(** C10: when icon preparation and packaging succeed, [Build] returns the
    archive name with a nil error whatever the two [image.Run] calls answer
    ([mvErr] for the relocation, [tarErr] for the extraction, either of
    which may be an error): both commands are run and their results are
    dropped. *)
Theorem Build_discards_Run_errors host cmd image t mvErr tarErr :
  host_prepareIcon host t (defaultContext cmd) image = None ->
  packagingAnswer host
    (t ++ [CallPrepareIcon (defaultContext cmd) image;
           CallLogInfo "[i] Packaging app..."]) cmd image = None ->
  host_Run host
    (t ++ [CallPrepareIcon (defaultContext cmd) image;
           CallLogInfo "[i] Packaging app..."; packagingCall cmd image])
    image (Volume (defaultContext cmd)) {| WorkDir := "" |}
    ["mv"; WorkDirContainer (defaultContext cmd) +:+ "/" +:+ archiveName cmd;
     stagingPath cmd image] = mvErr ->
  host_Run host
    (t ++ [CallPrepareIcon (defaultContext cmd) image;
           CallLogInfo "[i] Packaging app..."; packagingCall cmd image;
           relocateCall cmd image])
    image (Volume (defaultContext cmd)) {| WorkDir := binOutputPath cmd image |}
    ["tar"; "-xf"; stagingPath cmd image; "--strip-components=3"; "usr/local/bin"]
  = tarErr ->
  Build host cmd image t
  = ((Name (defaultContext cmd) +:+ ".tar.xz", None),
     t ++ [CallPrepareIcon (defaultContext cmd) image;
           CallLogInfo "[i] Packaging app..."; packagingCall cmd image;
           relocateCall cmd image; extractCall cmd image]).
Proof.
  intros Hicon Hpkg _ _. by apply Build_packaging_succeeds.
Qed.

Lemma Build_discards_Run_errors_witness :
  Build brokenRunHost demoCommand demoImage [CallLogInfo "start"]
  = ((Name (defaultContext demoCommand) +:+ ".tar.xz", None),
     [CallLogInfo "start"]
     ++ [CallPrepareIcon (defaultContext demoCommand) demoImage;
         CallLogInfo "[i] Packaging app..."; packagingCall demoCommand demoImage;
         relocateCall demoCommand demoImage; extractCall demoCommand demoImage]).
Proof.
  apply (Build_discards_Run_errors brokenRunHost demoCommand demoImage
           [CallLogInfo "start"]
           (Some (CollaboratorError "exit status 1"))
           (Some (CollaboratorError "exit status 1"))); reflexivity.
Defined.

(** ** Resolution and setup: the claims *)

(** C3: on a request made only of supported tokens, resolution returns the
    request with duplicates removed, every architecture at the place of its
    first occurrence (no duplicates, the same tokens as the request, in
    request order); on a request with a token outside the supported set it
    fails with the UnsupportedArchitecture error that carries the first
    such token and the supported set. *)
Theorem targetArchFromFlag_linux (flag : list string) :
  (Forall (λ v, v ∈ linuxArchSupported) flag ->
   ∃ targetArch,
     targetArchFromFlag flag linuxArchSupported = inl targetArch ∧
     targetArch = dedupFirst flag ∧
     NoDup targetArch ∧
     (∀ arch, arch ∈ targetArch ↔ arch ∈ flag) ∧
     targetArch `sublist_of` flag) ∧
  (¬ Forall (λ v, v ∈ linuxArchSupported) flag ->
   ∃ pre tok post,
     flag = pre ++ tok :: post ∧
     Forall (λ v, v ∈ linuxArchSupported) pre ∧
     (tok ∉ [ArchAmd64; Arch386; ArchArm; ArchArm64]) ∧
     targetArchFromFlag flag linuxArchSupported
     = inr (UnsupportedArchitecture tok [ArchAmd64; Arch386; ArchArm; ArchArm64])).
Proof.
  split.
  - intros Hall. exists (dedupFirst flag). split_and!.
    + by apply targetArchFromFlag_supported.
    + done.
    + apply NoDup_dedupFirst.
    + intros arch. apply elem_of_dedupFirst.
    + apply dedupFirst_sublist.
  - intros Hnot. by apply targetArchFromFlagLoop_unsupported.
Qed.

Lemma targetArchFromFlag_linux_witness :
  (∃ targetArch,
     targetArchFromFlag ["arm64"; "amd64"; "arm64"; "386"; "amd64"] linuxArchSupported
     = inl targetArch ∧
     targetArch = dedupFirst ["arm64"; "amd64"; "arm64"; "386"; "amd64"] ∧
     NoDup targetArch ∧
     (∀ arch, arch ∈ targetArch ↔ arch ∈ ["arm64"; "amd64"; "arm64"; "386"; "amd64"]) ∧
     targetArch `sublist_of` ["arm64"; "amd64"; "arm64"; "386"; "amd64"]) ∧
  (∃ pre tok post,
     ["amd64"; "riscv"; "arm"] = pre ++ tok :: post ∧
     Forall (λ v, v ∈ linuxArchSupported) pre ∧
     (tok ∉ [ArchAmd64; Arch386; ArchArm; ArchArm64]) ∧
     targetArchFromFlag ["amd64"; "riscv"; "arm"] linuxArchSupported
     = inr (UnsupportedArchitecture tok [ArchAmd64; Arch386; ArchArm; ArchArm64])).
Proof.
  split.
  - apply (proj1 (targetArchFromFlag_linux
                    ["arm64"; "amd64"; "arm64"; "386"; "amd64"])).
    repeat constructor; apply bool_decide_unpack; vm_compute; exact I.
  - apply (proj2 (targetArchFromFlag_linux ["amd64"; "riscv"; "arm"])).
    intros Hall. apply Forall_cons in Hall as [_ Hall].
    apply Forall_cons in Hall as [Hriscv _].
    apply elem_of_linuxArchSupported in Hriscv.
    destruct Hriscv as [H|[H|[H|H]]]; discriminate H.
Defined.

(** C8: when the request holds a token outside the supported set,
    [setupContainerImages] returns the UnsupportedArchitecture error (under
    its "could not make build context" prefix) with the trace of calls as it
    was: no context is made, no engine is constructed, no descriptor is
    created; and the command, its image list included, is unchanged. *)
Theorem setupContainerImages_unsupported_aborts host cmd flags args t :
  Exists (λ v, v ∉ linuxArchSupported) (TargetArch flags) ->
  ∃ tok cmd' t',
    tok ∈ TargetArch flags ∧ (tok ∉ linuxArchSupported) ∧
    setupContainerImages host cmd flags args t
    = (Returns (cmd', Some (Errorf "could not make build context for linux OS: "
                              (UnsupportedArchitecture tok linuxArchSupported))), t') ∧
    t' = t ∧ cmd' = cmd ∧ Images cmd' = Images cmd.
Proof.
  intros Hex.
  destruct (setupContainerImages_unsupported host cmd flags args t)
    as (pre & tok & post & Hflag & _ & Htok & Heq).
  { intros Hall. apply Exists_exists in Hex as (v & Hv & Hnot).
    rewrite Forall_forall in Hall. eauto. }
  exists tok, cmd, t. split_and!; try done.
  rewrite Hflag. apply elem_of_app. right. by left.
Qed.

Lemma setupContainerImages_unsupported_aborts_witness :
  ∃ tok cmd' t',
    tok ∈ ["amd64"; "riscv"] ∧ (tok ∉ linuxArchSupported) ∧
    setupContainerImages (quietHost "amd64" ["amd64,riscv"])
      {| Images := [demoImage]; defaultContext := demoContext |}
      {| linuxCommonFlags := demoFlags; TargetArch := ["amd64"; "riscv"] |}
      ["./cmd/demo"] [CallNewCommonFlags]
    = (Returns (cmd', Some (Errorf "could not make build context for linux OS: "
                              (UnsupportedArchitecture tok linuxArchSupported))), t') ∧
    t' = [CallNewCommonFlags] ∧
    cmd' = {| Images := [demoImage]; defaultContext := demoContext |} ∧
    Images cmd' = [demoImage].
Proof.
  apply (setupContainerImages_unsupported_aborts
           (quietHost "amd64" ["amd64,riscv"])
           {| Images := [demoImage]; defaultContext := demoContext |}
           {| linuxCommonFlags := demoFlags; TargetArch := ["amd64"; "riscv"] |}
           ["./cmd/demo"] [CallNewCommonFlags]).
  simpl. apply Exists_cons_tl, Exists_cons_hd.
  intros Hin. apply elem_of_linuxArchSupported in Hin.
  destruct Hin as [H|[H|[H|H]]]; discriminate H.
Defined.

(** C9: when no [-arch] value is supplied, [Parse] hands
    [setupContainerImages] the one-element request holding the host's
    [runtime.GOARCH], whatever that is; the request resolves to this
    architecture when Linux supports it and is refused, naming it, when not. *)
Theorem Parse_default_arch host cmd args t commonFlags :
  host_newCommonFlags host t = inl commonFlags ->
  archValues (host_flagSetParse host (t ++ [CallNewCommonFlags]) commonFlags args)
  = [] ->
  Parse host cmd args t
  = setupContainerImages host cmd
      {| linuxCommonFlags :=
           parsedCommon (host_flagSetParse host (t ++ [CallNewCommonFlags])
                           commonFlags args);
         TargetArch := [GOARCH host] |}
      (positional (host_flagSetParse host (t ++ [CallNewCommonFlags])
                     commonFlags args))
      (t ++ [CallNewCommonFlags; CallFlagSetParse args]) ∧
  targetArchFromFlag [GOARCH host] linuxArchSupported
  = (if bool_decide (GOARCH host ∈ linuxArchSupported)
     then inl [GOARCH host]
     else inr (UnsupportedArchitecture (GOARCH host) linuxArchSupported)).
Proof.
  intros Hflags Hnone. split.
  - unfold Parse, bind, newCommonFlags, flagSet_Parse, call, ret.
    rewrite Hflags. simpl. rewrite Hnone. simpl. by rewrite <- app_assoc.
  - unfold targetArchFromFlag. simpl. by case_bool_decide.
Qed.

Lemma Parse_default_arch_witness :
  Parse (quietHost "arm64" []) NewLinuxCommand ["./cmd/demo"] []
  = setupContainerImages (quietHost "arm64" []) NewLinuxCommand
      {| linuxCommonFlags := demoFlags; TargetArch := ["arm64"] |}
      ["./cmd/demo"] [CallNewCommonFlags; CallFlagSetParse ["./cmd/demo"]] ∧
  targetArchFromFlag ["arm64"] linuxArchSupported
  = (if bool_decide ("arm64" ∈ linuxArchSupported)
     then inl ["arm64"]
     else inr (UnsupportedArchitecture "arm64" linuxArchSupported)).
Proof.
  apply (Parse_default_arch (quietHost "arm64" []) NewLinuxCommand ["./cmd/demo"] []
           demoFlags); reflexivity.
Defined.

(** ** Environment entries *)

Lemma filter_key_absent (l : list (string * string)) (k : string) :
  k ∉ l.*1 -> filter (λ kv, kv.1 = k) l = [].
Proof.
  induction l as [|[k' v'] l IH]; [done|]. rewrite fmap_cons, not_elem_of_cons.
  intros [Hne Hk]. rewrite filter_cons_False by (simpl; intros ->; by apply Hne).
  by apply IH.
Qed.

Lemma filter_key_unique (l : list (string * string)) (k v : string) :
  NoDup l.*1 -> (k, v) ∈ l -> filter (λ kv, kv.1 = k) l = [(k, v)].
Proof.
  induction l as [|[k' v'] l IH]; intros Hnd Hin.
  { by apply elem_of_nil in Hin. }
  rewrite fmap_cons in Hnd. apply NoDup_cons in Hnd as [Hk' Hnd].
  apply elem_of_cons in Hin as [Heq|Hin].
  - injection Heq as <- <-. rewrite filter_cons_True by done.
    by rewrite filter_key_absent.
  - assert (k' ≠ k) as Hne.
    { intros ->. apply Hk'. apply list_elem_of_fmap. by exists (k, v). }
    rewrite filter_cons_False by done. by apply IH.
Qed.

Lemma envEntries_lookup image (k v : string) :
  imageEnv image !! k = Some v -> envEntries image k = [(k, v)].
Proof.
  intros Hlook. unfold envEntries. apply filter_key_unique.
  - apply NoDup_fst_map_to_list.
  - by apply elem_of_map_to_list.
Qed.

Lemma envEntries_SetEnv image (k v : string) :
  envEntries (SetEnv image k v) k = [(k, v)].
Proof. apply envEntries_lookup. simpl. apply lookup_insert_eq. Qed.

Lemma setupImage_Some runner flags (arch : string) image :
  setupImage runner flags arch = Some image ->
  arch ∈ linuxArchSupported ∧
  (∃ pre, archImage runner flags arch = Some pre ∧ image = SetEnv pre "GOOS" "linux") ∧
  imageArch image = arch ∧ imageOS image = linuxOS.
Proof.
  unfold setupImage. intros Hsetup.
  destruct (decide (arch ∈ linuxArchSupported)) as [Hin|Hout].
  - destruct (archSwitch_supported runner flags arch [] Hin)
      as (pre & _ & Hpre & _ & Harch & Hos & _).
    rewrite Hpre in Hsetup. simpl in Hsetup. injection Hsetup as <-.
    split_and!; [done|by exists pre|done|done].
  - unfold archImage in Hsetup.
    rewrite archSwitch_unsupported in Hsetup by done. discriminate Hsetup.
Qed.

(** C4: after a successful setup, the descriptors appended to the command
    are, one per resolved architecture and in order, the descriptor the
    architecture switch left ([pre], holding the architecture-specific
    entries) with GOOS set on top of it; each holds exactly one GOOS entry
    and its value is "linux".  Because GOOS is set last, this holds for
    whatever entries came before: setting it on any descriptor, one that
    already carries a GOOS entry included, leaves exactly the entry
    GOOS=linux. *)
Theorem GOOS_set_last host cmd flags args t cmd' t' :
  setupContainerImages host cmd flags args t = (Returns (cmd', None), t') ->
  (∃ runner images,
     Images cmd' = Images cmd ++ images ∧
     Forall2 (λ arch image,
                ∃ pre, archImage runner flags arch = Some pre ∧
                       image = SetEnv pre "GOOS" "linux" ∧
                       envEntries image "GOOS" = [("GOOS", linuxOS)])
             (dedupFirst (TargetArch flags)) images) ∧
  (∀ pre value,
     envEntries (SetEnv (SetEnv pre "GOOS" value) "GOOS" "linux") "GOOS"
     = [("GOOS", linuxOS)]).
Proof.
  intros Hrun. split.
  - apply setupContainerImages_inv in Hrun
      as (ctx & runner & images & _ & _ & _ & Himages & -> & _).
    exists runner, images. split; [done|].
    eapply Forall2_impl; [exact Himages|].
    intros arch image Hsetup. simpl in Hsetup.
    apply setupImage_Some in Hsetup as (_ & (pre & Hpre & ->) & _).
    exists pre. split_and!; [done|done|apply envEntries_SetEnv].
  - intros pre value. apply envEntries_SetEnv.
Qed.

Lemma demoSetup_run :
  setupContainerImages (quietHost "amd64" ["amd64,arm,amd64"]) NewLinuxCommand
    demoSetupFlags ["./cmd/demo"] []
  = (Returns (demoSetupCommand, None), demoSetupTrace).
Proof. reflexivity. Qed.

Lemma GOOS_set_last_witness :
  (∃ runner images,
     Images demoSetupCommand = Images NewLinuxCommand ++ images ∧
     Forall2 (λ arch image,
                ∃ pre, archImage runner demoSetupFlags arch = Some pre ∧
                       image = SetEnv pre "GOOS" "linux" ∧
                       envEntries image "GOOS" = [("GOOS", linuxOS)])
             (dedupFirst (TargetArch demoSetupFlags)) images) ∧
  (∀ pre value,
     envEntries (SetEnv (SetEnv pre "GOOS" value) "GOOS" "linux") "GOOS"
     = [("GOOS", linuxOS)]).
Proof.
  apply (GOOS_set_last (quietHost "amd64" ["amd64,arm,amd64"]) NewLinuxCommand
           demoSetupFlags ["./cmd/demo"] [] demoSetupCommand demoSetupTrace).
  reflexivity.
Defined.

(** C5: in one invocation (a setup run on a fresh command), two descriptors
    at different places of the image list have different identifiers, and
    the staging path and the binary-output path of the one differ from
    those of the other; these are the paths the pipeline uses: every
    container command [Build] runs for a descriptor is the move of the
    archive to that descriptor's staging path or the extraction from it in
    that descriptor's binary-output directory. *)
Theorem descriptor_paths_isolated host flags args t cmd' t' i j a b :
  setupContainerImages host NewLinuxCommand flags args t = (Returns (cmd', None), t') ->
  i ≠ j -> Images cmd' !! i = Some a -> Images cmd' !! j = Some b ->
  ID a ≠ ID b ∧
  stagingPath cmd' a ≠ stagingPath cmd' b ∧
  binOutputPath cmd' a ≠ binOutputPath cmd' b ∧
  (∀ h image e,
     e ∈ snd (Build h cmd' image []) -> isRun e = true ->
     e = CallRun image (Volume (defaultContext cmd')) {| WorkDir := "" |}
           ["mv";
            WorkDirContainer (defaultContext cmd') +:+ "/"
              +:+ Name (defaultContext cmd') +:+ ".tar.xz";
            stagingPath cmd' image] ∨
     e = CallRun image (Volume (defaultContext cmd'))
           {| WorkDir := binOutputPath cmd' image |}
           ["tar"; "-xf"; stagingPath cmd' image; "--strip-components=3";
            "usr/local/bin"]).
Proof.
  intros Hrun Hij Ha Hb.
  apply setupContainerImages_inv in Hrun
    as (ctx & runner & images & _ & _ & _ & Himages & -> & _).
  simpl in Ha, Hb.
  destruct (Forall2_lookup_r _ _ _ _ _ Himages Ha) as (archa & Hla & Hsa).
  destruct (Forall2_lookup_r _ _ _ _ _ Himages Hb) as (archb & Hlb & Hsb).
  apply setupImage_Some in Hsa as (_ & _ & Harcha & Hosa).
  apply setupImage_Some in Hsb as (_ & _ & Harchb & Hosb).
  assert (HID : ID a ≠ ID b).
  { intros Heq. apply ID_inj in Heq; [|congruence].
    apply Hij. eapply NoDup_lookup; [apply NoDup_dedupFirst|exact Hla|].
    congruence. }
  split_and!.
  - done.
  - intros Heq. by apply HID, (stagingPath_inj _ _ _ Heq).
  - intros Heq. by apply HID, (binOutputPath_inj _ _ _ Heq).
  - intros h image e. apply Build_Run_events.
Qed.

Lemma descriptor_paths_isolated_witness :
  ID demoAmd64Image ≠ ID demoArmImage ∧
  stagingPath demoSetupCommand demoAmd64Image
  ≠ stagingPath demoSetupCommand demoArmImage ∧
  binOutputPath demoSetupCommand demoAmd64Image
  ≠ binOutputPath demoSetupCommand demoArmImage ∧
  (∀ h image e,
     e ∈ snd (Build h demoSetupCommand image []) -> isRun e = true ->
     e = CallRun image (Volume (defaultContext demoSetupCommand)) {| WorkDir := "" |}
           ["mv";
            WorkDirContainer (defaultContext demoSetupCommand) +:+ "/"
              +:+ Name (defaultContext demoSetupCommand) +:+ ".tar.xz";
            stagingPath demoSetupCommand image] ∨
     e = CallRun image (Volume (defaultContext demoSetupCommand))
           {| WorkDir := binOutputPath demoSetupCommand image |}
           ["tar"; "-xf"; stagingPath demoSetupCommand image; "--strip-components=3";
            "usr/local/bin"]).
Proof.
  apply (descriptor_paths_isolated (quietHost "amd64" ["amd64,arm,amd64"])
           demoSetupFlags ["./cmd/demo"] [] demoSetupCommand demoSetupTrace 0 1
           demoAmd64Image demoArmImage).
  - reflexivity.
  - lia.
  - reflexivity.
  - reflexivity.
Defined.

(** C6: for the request "amd64,arm64", with the context and the engine
    made, resolution yields [amd64, arm64] and exactly two descriptors are
    created and appended, in that order.  Both carry GOOS=linux and the CC
    and CXX of their own target; the amd64 one has GOARCH=amd64 and no
    GOARM entry, the arm64 one has GOARCH=arm64. *)
Theorem amd64_arm64_scenario host cmd flags args t ctx runner :
  TargetArch flags = targetArchFlag_Set [GOARCH host] "amd64,arm64" ->
  host_makeDefaultContext host t (linuxCommonFlags flags) args = inl ctx ->
  host_newContainerEngine host
    (t ++ [CallMakeDefaultContext (linuxCommonFlags flags) args]) ctx = inl runner ->
  targetArchFromFlag (TargetArch flags) linuxArchSupported
  = inl [ArchAmd64; ArchArm64] ∧
  ∃ amd64 arm64,
    setupContainerImages host cmd flags args t
    = (Returns ({| Images := Images cmd ++ [amd64; arm64]; defaultContext := ctx |},
                None),
       t ++ [CallMakeDefaultContext (linuxCommonFlags flags) args;
             CallNewContainerEngine ctx;
             CallCreateContainerImage "amd64" "linux"
               (overrideDockerImage (linuxCommonFlags flags) linuxImageAmd64);
             CallCreateContainerImage "arm64" "linux"
               (overrideDockerImage (linuxCommonFlags flags) linuxImageArm64)]) ∧
    imageArch amd64 = "amd64" ∧
    imageEnv amd64 !! "GOOS" = Some "linux" ∧
    imageEnv amd64 !! "GOARCH" = Some "amd64" ∧
    imageEnv amd64 !! "GOARM" = None ∧
    imageEnv amd64 !! "CC"
    = Some "zig cc -target x86_64-linux-gnu -isystem /usr/include -L/usr/lib/x86_64-linux-gnu" ∧
    imageEnv amd64 !! "CXX"
    = Some "zig c++ -target x86_64-linux-gnu -isystem /usr/include -L/usr/lib/x86_64-linux-gnu" ∧
    imageArch arm64 = "arm64" ∧
    imageEnv arm64 !! "GOOS" = Some "linux" ∧
    imageEnv arm64 !! "GOARCH" = Some "arm64" ∧
    imageEnv arm64 !! "CC"
    = Some "zig cc -target aarch64-linux-gnu -isystem /usr/include -L/usr/lib/aarch64-linux-gnu" ∧
    imageEnv arm64 !! "CXX"
    = Some "zig c++ -target aarch64-linux-gnu -isystem /usr/include -L/usr/lib/aarch64-linux-gnu".
Proof.
  intros Hflag Hctx Heng.
  assert (Hall : Forall (λ v, v ∈ linuxArchSupported) (TargetArch flags)).
  { rewrite Hflag. repeat constructor; apply bool_decide_unpack; vm_compute; exact I. }
  assert (Hdedup : dedupFirst (TargetArch flags) = ["amd64"; "arm64"]).
  { rewrite Hflag. vm_compute. reflexivity. }
  split.
  { rewrite targetArchFromFlag_supported by done. by rewrite Hdedup. }
  destruct (setupContainerImages_succeeds host cmd flags args t ctx runner
              Hall Hctx Heng) as (images & Himages & Hrun).
  rewrite Hdedup in Himages, Hrun.
  apply Forall2_cons_inv_l in Himages as (amd64 & images1 & Hamd64 & Himages & ->).
  apply Forall2_cons_inv_l in Himages as (arm64 & images2 & Harm64 & Himages & ->).
  apply Forall2_nil_inv_l in Himages as ->.
  exists amd64, arm64. split; [exact Hrun|].
  injection Hamd64 as <-. injection Harm64 as <-.
  split_and!; vm_compute; reflexivity.
Qed.

Lemma amd64_arm64_scenario_witness :
  targetArchFromFlag ["amd64"; "arm64"] linuxArchSupported
  = inl [ArchAmd64; ArchArm64] ∧
  ∃ amd64 arm64,
    setupContainerImages (quietHost "386" ["amd64,arm64"]) NewLinuxCommand
      {| linuxCommonFlags := demoFlags; TargetArch := ["amd64"; "arm64"] |}
      ["./cmd/demo"] []
    = (Returns ({| Images := Images NewLinuxCommand ++ [amd64; arm64];
                   defaultContext := demoContext |}, None),
       [] ++ [CallMakeDefaultContext demoFlags ["./cmd/demo"];
              CallNewContainerEngine demoContext;
              CallCreateContainerImage "amd64" "linux"
                (overrideDockerImage demoFlags linuxImageAmd64);
              CallCreateContainerImage "arm64" "linux"
                (overrideDockerImage demoFlags linuxImageArm64)]) ∧
    imageArch amd64 = "amd64" ∧
    imageEnv amd64 !! "GOOS" = Some "linux" ∧
    imageEnv amd64 !! "GOARCH" = Some "amd64" ∧
    imageEnv amd64 !! "GOARM" = None ∧
    imageEnv amd64 !! "CC"
    = Some "zig cc -target x86_64-linux-gnu -isystem /usr/include -L/usr/lib/x86_64-linux-gnu" ∧
    imageEnv amd64 !! "CXX"
    = Some "zig c++ -target x86_64-linux-gnu -isystem /usr/include -L/usr/lib/x86_64-linux-gnu" ∧
    imageArch arm64 = "arm64" ∧
    imageEnv arm64 !! "GOOS" = Some "linux" ∧
    imageEnv arm64 !! "GOARCH" = Some "arm64" ∧
    imageEnv arm64 !! "CC"
    = Some "zig cc -target aarch64-linux-gnu -isystem /usr/include -L/usr/lib/aarch64-linux-gnu" ∧
    imageEnv arm64 !! "CXX"
    = Some "zig c++ -target aarch64-linux-gnu -isystem /usr/include -L/usr/lib/aarch64-linux-gnu".
Proof.
  apply (amd64_arm64_scenario (quietHost "386" ["amd64,arm64"]) NewLinuxCommand
           {| linuxCommonFlags := demoFlags; TargetArch := ["amd64"; "arm64"] |}
           ["./cmd/demo"] [] demoContext demoEngine); reflexivity.
Defined.

(** ** The spec's scenarios, evaluated *)

Example splitComma_amd64_arm64 :
  targetArchFlag_Set ["amd64"] "amd64,arm64" = ["amd64"; "arm64"].
Proof. reflexivity. Qed.

Example resolve_riscv :
  targetArchFromFlag ["riscv"] linuxArchSupported
  = inr (UnsupportedArchitecture "riscv" ["amd64"; "386"; "arm"; "arm64"]).
Proof. vm_compute. reflexivity. Qed.

Example resolve_duplicates :
  targetArchFromFlag ["arm64"; "amd64"; "arm64"] linuxArchSupported
  = inl ["arm64"; "amd64"].
Proof. vm_compute. reflexivity. Qed.

Example Parse_riscv_host :
  Parse (quietHost "riscv64" []) NewLinuxCommand ["./cmd/demo"] []
  = (Returns (NewLinuxCommand, Some (unsupportedError "riscv64")),
     [CallNewCommonFlags; CallFlagSetParse ["./cmd/demo"]]).
Proof. vm_compute. reflexivity. Qed.

(** ** Build: further properties *)

(** The three ways [Build] can end. *)
Lemma Build_cases host cmd image t :
  (∃ err, Build host cmd image t
          = (("", Some err), t ++ take 1 (pipelineCalls cmd image))) ∨
  (∃ err, Build host cmd image t
          = (("", Some (Errorf "could not package the Fyne app: " err)),
             t ++ take 3 (pipelineCalls cmd image))) ∨
  Build host cmd image t = ((archiveName cmd, None), t ++ pipelineCalls cmd image).
Proof.
  destruct (host_prepareIcon host t (defaultContext cmd) image) as [err|] eqn:Hicon.
  { left. exists err. by apply Build_prepareIcon_fails. }
  destruct (packagingAnswer host
              (t ++ [CallPrepareIcon (defaultContext cmd) image;
                     CallLogInfo "[i] Packaging app..."]) cmd image)
    as [err|] eqn:Hpkg.
  { right. left. exists err. by apply Build_packaging_fails. }
  right. right. by apply Build_packaging_succeeds.
Qed.

Lemma archiveName_nonempty cmd : archiveName cmd ≠ "".
Proof.
  unfold archiveName. intros Heq. apply (f_equal String.length) in Heq.
  rewrite length_append in Heq. simpl in Heq. lia.
Qed.

(** X1: When icon preparation fails, [Build] returns that error as it is, with
    the empty name, and stops: the only call made is the icon preparation
    (no log line, no packaging call, no container command). *)
Theorem Build_icon_failure host cmd image t err :
  host_prepareIcon host t (defaultContext cmd) image = Some err ->
  Build host cmd image t
  = (("", Some err), t ++ [CallPrepareIcon (defaultContext cmd) image]).
Proof. apply Build_prepareIcon_fails. Qed.

Lemma Build_icon_failure_witness :
  Build (scriptedHost "amd64" (inl demoFlags) [] (inl demoContext) (inl demoEngine)
           (Some (CollaboratorError "icon not found")) None None)
    demoCommand demoImage [CallLogInfo "start"]
  = (("", Some (CollaboratorError "icon not found")),
     [CallLogInfo "start"] ++ [CallPrepareIcon (defaultContext demoCommand) demoImage]).
Proof.
  apply (Build_icon_failure
           (scriptedHost "amd64" (inl demoFlags) [] (inl demoContext) (inl demoEngine)
              (Some (CollaboratorError "icon not found")) None None)
           demoCommand demoImage [CallLogInfo "start"]
           (CollaboratorError "icon not found")).
  reflexivity.
Defined.

(** X2: [Build] never returns a name together with an error: either the error is
    nil and the name is the application name followed by ".tar.xz", which is
    never the empty string (also for an empty application name), or there is
    an error and the name is empty. *)
Theorem Build_name_xor_error host cmd image t :
  (fst (Build host cmd image t) = (Name (defaultContext cmd) +:+ ".tar.xz", None) ∧
   Name (defaultContext cmd) +:+ ".tar.xz" ≠ "") ∨
  (∃ err, fst (Build host cmd image t) = ("", Some err)).
Proof.
  destruct (Build_cases host cmd image t) as [ [err ->] | [ [err ->] | -> ] ].
  - right. by eexists.
  - right. by eexists.
  - left. split; [done|]. apply archiveName_nonempty.
Qed.

(** X3: The calls [Build] adds to the trace are an initial part of the pipeline
    (icon preparation, log line, packaging, relocation, extraction), taken
    in that order; the pipeline is complete exactly when the returned error
    is nil, and a container command is run only when packaging has
    succeeded. *)
Theorem Build_call_order host cmd image t :
  ∃ calls,
    snd (Build host cmd image t) = t ++ calls ∧
    calls `prefix_of` pipelineCalls cmd image ∧
    (snd (fst (Build host cmd image t)) = None ↔ calls = pipelineCalls cmd image) ∧
    (snd (fst (Build host cmd image t)) ≠ None -> Forall (λ e, isRun e = false) calls).
Proof.
  destruct (Build_cases host cmd image t) as [ [err ->] | [ [err ->] | -> ] ]; simpl.
  - eexists. split; [reflexivity|]. split_and!.
    + by eexists.
    + split; intros H; discriminate H.
    + intros _. repeat constructor.
  - eexists. split; [reflexivity|]. split_and!.
    + by eexists.
    + split; intros H; discriminate H.
    + intros _. repeat constructor. apply packagingCall_not_Run.
  - eexists. split; [reflexivity|]. split_and!; [done|done|congruence].
Qed.

(** X4: The packaging mode follows the release flag: a fyneRelease call appears
    among the calls of [Build] only when the flag is set, a fynePackage call
    only when it is not, and either is made on the command's context and the
    given descriptor. *)
Theorem Build_packaging_mode host cmd image t :
  ∃ calls,
    snd (Build host cmd image t) = t ++ calls ∧
    (∀ ctx im, CallFyneRelease ctx im ∈ calls ->
               Release (defaultContext cmd) = true ∧ ctx = defaultContext cmd ∧
               im = image) ∧
    (∀ ctx im, CallFynePackage ctx im ∈ calls ->
               Release (defaultContext cmd) = false ∧ ctx = defaultContext cmd ∧
               im = image).
Proof.
  assert (Hall : ∀ n,
    (∀ ctx im, CallFyneRelease ctx im ∈ take n (pipelineCalls cmd image) ->
               Release (defaultContext cmd) = true ∧ ctx = defaultContext cmd ∧
               im = image) ∧
    (∀ ctx im, CallFynePackage ctx im ∈ take n (pipelineCalls cmd image) ->
               Release (defaultContext cmd) = false ∧ ctx = defaultContext cmd ∧
               im = image)).
  { intros n. split; intros ctx im Hin; apply elem_of_take in Hin as (i & Hin & _);
      unfold pipelineCalls, packagingCall in Hin;
      destruct (Release (defaultContext cmd));
      destruct i as [|[|[|[|[|i]]]]]; simpl in Hin; try discriminate Hin;
      injection Hin as <- <-; done. }
  destruct (Build_cases host cmd image t) as [ [err ->] | [ [err ->] | -> ] ].
  - exists (take 1 (pipelineCalls cmd image)). split; [reflexivity|]. apply Hall.
  - exists (take 3 (pipelineCalls cmd image)). split; [reflexivity|]. apply Hall.
  - exists (pipelineCalls cmd image). split; [reflexivity|].
    rewrite <- (take_ge (pipelineCalls cmd image) 5) by (simpl; lia). apply Hall.
Qed.

(** X5: The extraction reads the archive at the path the relocation moved it
    to, and the relocation takes it from the working directory under a name
    that does not depend on the descriptor. *)
Theorem Build_extracts_what_it_relocated host cmd image
    i1 v1 o1 src dst i2 v2 o2 archive rest :
  CallRun i1 v1 o1 ["mv"; src; dst] ∈ snd (Build host cmd image []) ->
  CallRun i2 v2 o2 ("tar" :: "-xf" :: archive :: rest) ∈ snd (Build host cmd image []) ->
  archive = dst ∧
  src = WorkDirContainer (defaultContext cmd) +:+ "/"
        +:+ Name (defaultContext cmd) +:+ ".tar.xz" ∧
  WorkDir o1 = "" ∧
  rest = ["--strip-components=3"; "usr/local/bin"].
Proof.
  intros Hmv Htar.
  apply Build_Run_events in Hmv as [Hmv|Hmv]; [|discriminate Hmv|done].
  apply Build_Run_events in Htar as [Htar|Htar]; [discriminate Htar| |done].
  unfold relocateCall in Hmv. unfold extractCall in Htar.
  injection Hmv as -> -> -> -> ->. injection Htar as -> -> -> -> ->.
  done.
Qed.

Lemma Build_extracts_what_it_relocated_witness :
  "/app/fyne-cross/tmp/linux-amd64/demo.tar.xz"
  = "/app/fyne-cross/tmp/linux-amd64/demo.tar.xz" ∧
  "/app/demo.tar.xz"
  = WorkDirContainer (defaultContext releaseCommand) +:+ "/"
    +:+ Name (defaultContext releaseCommand) +:+ ".tar.xz" ∧
  WorkDir {| WorkDir := "" |} = "" ∧
  ["--strip-components=3"; "usr/local/bin"] = ["--strip-components=3"; "usr/local/bin"].
Proof.
  apply (Build_extracts_what_it_relocated (quietHost "amd64" []) releaseCommand
           demoImage
           demoImage demoVolume {| WorkDir := "" |} "/app/demo.tar.xz"
           "/app/fyne-cross/tmp/linux-amd64/demo.tar.xz"
           demoImage demoVolume {| WorkDir := "/app/fyne-cross/bin/linux-amd64" |}
           "/app/fyne-cross/tmp/linux-amd64/demo.tar.xz"
           ["--strip-components=3"; "usr/local/bin"]).
  - rewrite Build_packaging_succeeds by reflexivity.
    apply list_elem_of_In. simpl. right. right. right. left. reflexivity.
  - rewrite Build_packaging_succeeds by reflexivity.
    apply list_elem_of_In. simpl. right. right. right. right. left. reflexivity.
Defined.

(** ** Setup and Parse: further properties *)


Lemma Parse_unfold host cmd args t commonFlags :
  host_newCommonFlags host t = inl commonFlags ->
  Parse host cmd args t
  = setupContainerImages host cmd
      {| linuxCommonFlags :=
           parsedCommon (host_flagSetParse host (t ++ [CallNewCommonFlags])
                           commonFlags args);
         TargetArch :=
           foldl targetArchFlag_Set [GOARCH host]
             (archValues (host_flagSetParse host (t ++ [CallNewCommonFlags])
                            commonFlags args)) |}
      (positional (host_flagSetParse host (t ++ [CallNewCommonFlags])
                     commonFlags args))
      (t ++ [CallNewCommonFlags; CallFlagSetParse args]).
Proof.
  intros Hflags. unfold Parse, bind, newCommonFlags, flagSet_Parse, call, ret.
  rewrite Hflags. simpl. by rewrite <- app_assoc.
Qed.

(** X6: When the build context cannot be made, [setupContainerImages] returns
    the error of makeDefaultContext as it is (no prefix), leaves the command
    as it was, default context included, and makes no further call: no
    engine is constructed and no descriptor is created. *)
Theorem setupContainerImages_context_failure host cmd flags args t err :
  Forall (λ v, v ∈ linuxArchSupported) (TargetArch flags) ->
  host_makeDefaultContext host t (linuxCommonFlags flags) args = inr err ->
  setupContainerImages host cmd flags args t
  = (Returns (cmd, Some err),
     t ++ [CallMakeDefaultContext (linuxCommonFlags flags) args]).
Proof. apply setupContainerImages_context_fails. Qed.

Lemma setupContainerImages_context_failure_witness :
  setupContainerImages
    (scriptedHost "amd64" (inl demoFlags) [] (inr (CollaboratorError "no go.mod"))
       (inl demoEngine) None None None)
    demoSetupCommand demoSetupFlags ["./cmd/demo"] []
  = (Returns (demoSetupCommand, Some (CollaboratorError "no go.mod")),
     [] ++ [CallMakeDefaultContext (linuxCommonFlags demoSetupFlags) ["./cmd/demo"]]).
Proof.
  apply (setupContainerImages_context_failure
           (scriptedHost "amd64" (inl demoFlags) []
              (inr (CollaboratorError "no go.mod")) (inl demoEngine) None None None)
           demoSetupCommand demoSetupFlags ["./cmd/demo"] []
           (CollaboratorError "no go.mod")).
  - repeat constructor; apply bool_decide_unpack; vm_compute; exact I.
  - reflexivity.
Defined.

(** X7: When the container engine cannot be constructed, [setupContainerImages]
    returns the engine's error as it is and creates no descriptor: the image
    list is as before.  The command's default context, however, has already
    been replaced by the freshly made one. *)
Theorem setupContainerImages_engine_failure host cmd flags args t ctx err :
  Forall (λ v, v ∈ linuxArchSupported) (TargetArch flags) ->
  host_makeDefaultContext host t (linuxCommonFlags flags) args = inl ctx ->
  host_newContainerEngine host
    (t ++ [CallMakeDefaultContext (linuxCommonFlags flags) args]) ctx = inr err ->
  ∃ cmd' t',
    setupContainerImages host cmd flags args t = (Returns (cmd', Some err), t') ∧
    Images cmd' = Images cmd ∧ defaultContext cmd' = ctx ∧
    t' = t ++ [CallMakeDefaultContext (linuxCommonFlags flags) args;
               CallNewContainerEngine ctx] ∧
    Forall (λ e, isCreate e = false)
           [CallMakeDefaultContext (linuxCommonFlags flags) args;
            CallNewContainerEngine ctx].
Proof.
  intros Hall Hctx Heng. eexists _, _. split.
  - by apply setupContainerImages_engine_fails.
  - split_and!; try done. repeat constructor.
Qed.

Lemma setupContainerImages_engine_failure_witness :
  ∃ cmd' t',
    setupContainerImages
      (scriptedHost "amd64" (inl demoFlags) [] (inl demoContext)
         (inr (CollaboratorError "docker not found")) None None None)
      NewLinuxCommand demoSetupFlags ["./cmd/demo"] []
    = (Returns (cmd', Some (CollaboratorError "docker not found")), t') ∧
    Images cmd' = Images NewLinuxCommand ∧ defaultContext cmd' = demoContext ∧
    t' = [] ++ [CallMakeDefaultContext (linuxCommonFlags demoSetupFlags) ["./cmd/demo"];
                CallNewContainerEngine demoContext] ∧
    Forall (λ e, isCreate e = false)
           [CallMakeDefaultContext (linuxCommonFlags demoSetupFlags) ["./cmd/demo"];
            CallNewContainerEngine demoContext].
Proof.
  apply (setupContainerImages_engine_failure
           (scriptedHost "amd64" (inl demoFlags) [] (inl demoContext)
              (inr (CollaboratorError "docker not found")) None None None)
           NewLinuxCommand demoSetupFlags ["./cmd/demo"] [] demoContext
           (CollaboratorError "docker not found")).
  - repeat constructor; apply bool_decide_unpack; vm_compute; exact I.
  - reflexivity.
  - reflexivity.
Defined.




(** X10: When the common flags cannot be set up, [Parse] returns that error as
    it is; the flag set is not parsed, nothing is resolved or created, and
    the command is unchanged. *)
Theorem Parse_flags_failure host cmd args t err :
  host_newCommonFlags host t = inr err ->
  Parse host cmd args t = (Returns (cmd, Some err), t ++ [CallNewCommonFlags]).
Proof.
  intros Hflags. unfold Parse, bind, newCommonFlags, call, ret. by rewrite Hflags.
Qed.

Lemma Parse_flags_failure_witness :
  Parse (scriptedHost "amd64" (inr (CollaboratorError "getwd failed")) []
           (inl demoContext) (inl demoEngine) None None None)
    NewLinuxCommand ["-arch"; "arm64"] []
  = (Returns (NewLinuxCommand, Some (CollaboratorError "getwd failed")),
     [] ++ [CallNewCommonFlags]).
Proof.
  apply (Parse_flags_failure
           (scriptedHost "amd64" (inr (CollaboratorError "getwd failed")) []
              (inl demoContext) (inl demoEngine) None None None)
           NewLinuxCommand ["-arch"; "arm64"] [] (CollaboratorError "getwd failed")).
  reflexivity.
Defined.

(** X11: On a host whose own architecture Linux builds do not support, a [Parse]
    without an [-arch] value fails: the default request is refused like any
    other, with the error naming the host architecture, before the context
    is made. *)
Theorem Parse_unsupported_host host cmd args t commonFlags :
  host_newCommonFlags host t = inl commonFlags ->
  archValues (host_flagSetParse host (t ++ [CallNewCommonFlags]) commonFlags args)
  = [] ->
  GOARCH host ∉ linuxArchSupported ->
  Parse host cmd args t
  = (Returns (cmd, Some (Errorf "could not make build context for linux OS: "
                           (UnsupportedArchitecture (GOARCH host)
                              linuxArchSupported))),
     t ++ [CallNewCommonFlags; CallFlagSetParse args]).
Proof.
  intros Hflags Hnone Hout.
  rewrite (Parse_unfold _ _ _ _ commonFlags) by done. rewrite Hnone. simpl.
  unfold setupContainerImages, targetArchFromFlag. simpl.
  by rewrite bool_decide_eq_false_2.
Qed.

Lemma Parse_unsupported_host_witness :
  Parse (quietHost "riscv64" []) NewLinuxCommand ["./cmd/demo"] []
  = (Returns (NewLinuxCommand,
              Some (Errorf "could not make build context for linux OS: "
                      (UnsupportedArchitecture (GOARCH (quietHost "riscv64" []))
                         linuxArchSupported))),
     [] ++ [CallNewCommonFlags; CallFlagSetParse ["./cmd/demo"]]).
Proof.
  apply (Parse_unsupported_host (quietHost "riscv64" []) NewLinuxCommand
           ["./cmd/demo"] [] demoFlags).
  - reflexivity.
  - reflexivity.
  - intros Hin. apply elem_of_linuxArchSupported in Hin.
    destruct Hin as [H|[H|[H|H]]]; discriminate H.
Defined.

(** What the loop leaves in the environment of a descriptor. *)
Lemma setupImage_env runner flags (arch : string) image :
  setupImage runner flags arch = Some image ->
  imageEnv image !! "GOARCH" = Some arch ∧
  imageEnv image !! "GOOS" = Some "linux" ∧
  imageEnv image !! "GOARM" = (if decide (arch = ArchArm) then Some "7" else None) ∧
  (∃ target, imageEnv image !! "CC" = Some ("zig cc" +:+ target) ∧
             imageEnv image !! "CXX" = Some ("zig c++" +:+ target)) ∧
  (∀ key, is_Some (imageEnv image !! key) ->
          key ∈ ["GOARCH"; "GOARM"; "CC"; "CXX"; "GOOS"]) ∧
  imageRef image = overrideDockerImage (linuxCommonFlags flags)
                     "ghcr.io/herugen/fyne-cross-images-linux:latest" ∧
  imageEngine image = runner.
Proof.
  intros Hsetup.
  destruct (setupImage_Some _ _ _ _ Hsetup) as (Harch & _).
  arch_cases Harch; injection Hsetup as <-.
  all: split_and!; try (vm_compute; reflexivity); try reflexivity.
  all: try (eexists; split; reflexivity).
  all: intros key [v Hv]; simpl in Hv;
    repeat (apply lookup_insert_Some in Hv as [[<- _]|[_ Hv]];
            [apply list_elem_of_In; simpl; auto 10|]);
    by rewrite lookup_empty in Hv.
Qed.

Lemma setupImage_compilers_differ r1 f1 r2 f2 (x y : string) a b :
  setupImage r1 f1 x = Some a -> setupImage r2 f2 y = Some b -> x ≠ y ->
  imageEnv a !! "GOARCH" ≠ imageEnv b !! "GOARCH" ∧
  imageEnv a !! "CC" ≠ imageEnv b !! "CC" ∧
  imageEnv a !! "CXX" ≠ imageEnv b !! "CXX".
Proof.
  intros Ha Hb Hxy.
  destruct (setupImage_Some _ _ _ _ Ha) as (Hx & _).
  destruct (setupImage_Some _ _ _ _ Hb) as (Hy & _).
  arch_cases Hx; arch_cases Hy; try (by destruct Hxy);
    injection Ha as <-; injection Hb as <-;
    split_and!; intros Heq; vm_compute in Heq; discriminate Heq.
Qed.

(** The descriptors a successful setup appends, seen from the command. *)
Lemma setupContainerImages_new_images host cmd flags args t cmd' t' :
  setupContainerImages host cmd flags args t = (Returns (cmd', None), t') ->
  ∃ runner,
    Forall2 (λ arch image, setupImage runner flags arch = Some image)
            (dedupFirst (TargetArch flags))
            (drop (length (Images cmd)) (Images cmd')).
Proof.
  intros Hrun.
  apply setupContainerImages_inv in Hrun
    as (ctx & runner & images & _ & _ & _ & Himages & -> & _).
  exists runner. simpl. by rewrite drop_app_length.
Qed.

Lemma setupContainerImages_new_image host cmd flags args t cmd' t' image :
  setupContainerImages host cmd flags args t = (Returns (cmd', None), t') ->
  image ∈ drop (length (Images cmd)) (Images cmd') ->
  ∃ runner arch, arch ∈ dedupFirst (TargetArch flags) ∧
                 setupImage runner flags arch = Some image.
Proof.
  intros Hrun Hin.
  apply setupContainerImages_new_images in Hrun as (runner & Himages).
  apply list_elem_of_lookup in Hin as (i & Hi).
  destruct (Forall2_lookup_r _ _ _ _ _ Himages Hi) as (arch & Harch & Hsetup).
  exists runner, arch. split; [|done]. apply list_elem_of_lookup. by exists i.
Qed.

(** X12: A successful setup keeps the images the command already had and appends
    one descriptor per resolved architecture, in resolution order, each
    bound to the linux OS; the createContainerImage calls it makes are
    exactly one per appended descriptor, in the same order. *)
Theorem setupContainerImages_appends host cmd flags args t cmd' t' :
  setupContainerImages host cmd flags args t = (Returns (cmd', None), t') ->
  ∃ images,
    Images cmd' = Images cmd ++ images ∧
    imageArch <$> images = dedupFirst (TargetArch flags) ∧
    Forall (λ image, imageOS image = "linux") images ∧
    filter (λ e, isCreate e = true) (drop (length t) t')
    = (λ image, CallCreateContainerImage (imageArch image) "linux" (imageRef image))
        <$> images.
Proof.
  intros Hrun.
  apply setupContainerImages_inv in Hrun
    as (ctx & runner & images & _ & _ & _ & Himages & -> & ->).
  exists images. split; [done|]. rewrite drop_app_length. cbn [app].
  rewrite filter_cons_False by (simpl; discriminate).
  rewrite filter_cons_False by (simpl; discriminate).
  induction Himages as [|arch image archs images Hsetup Himages IH].
  { split_and!; [done|constructor|done]. }
  destruct IH as (Harchs & Hos & Hcalls).
  destruct (setupImage_Some _ _ _ _ Hsetup) as (Hin & _ & Harch & Himos).
  destruct (setupImage_env _ _ _ _ Hsetup) as (_ & _ & _ & _ & _ & Href & _).
  split_and!.
  - rewrite fmap_cons. by f_equal.
  - by constructor.
  - rewrite !fmap_cons, filter_cons_True by done. f_equal; [|done].
    rewrite Harch, Href. unfold createCall, linuxImage. by repeat case_decide.
Qed.

Lemma setupContainerImages_appends_witness :
  ∃ images,
    Images demoSetupCommand = Images NewLinuxCommand ++ images ∧
    imageArch <$> images = dedupFirst (TargetArch demoSetupFlags) ∧
    Forall (λ image, imageOS image = "linux") images ∧
    filter (λ e, isCreate e = true) (drop (length (@nil Event)) demoSetupTrace)
    = (λ image, CallCreateContainerImage (imageArch image) "linux" (imageRef image))
        <$> images.
Proof.
  apply (setupContainerImages_appends (quietHost "amd64" ["amd64,arm,amd64"])
           NewLinuxCommand demoSetupFlags ["./cmd/demo"] [] demoSetupCommand
           demoSetupTrace).
  reflexivity.
Defined.

(** X13: Every descriptor a successful setup appends carries GOARCH equal to its
    own architecture, GOOS=linux, GOARM=7 exactly when it is the arm one, and
    a CC and a CXX that are "zig cc" and "zig c++" followed by the same
    target options; it carries no other variable. *)
Theorem descriptor_environment host cmd flags args t cmd' t' image :
  setupContainerImages host cmd flags args t = (Returns (cmd', None), t') ->
  image ∈ drop (length (Images cmd)) (Images cmd') ->
  imageEnv image !! "GOARCH" = Some (imageArch image) ∧
  imageEnv image !! "GOOS" = Some "linux" ∧
  imageEnv image !! "GOARM"
  = (if decide (imageArch image = "arm") then Some "7" else None) ∧
  (∃ target, imageEnv image !! "CC" = Some ("zig cc" +:+ target) ∧
             imageEnv image !! "CXX" = Some ("zig c++" +:+ target)) ∧
  (∀ key, is_Some (imageEnv image !! key) ->
          key ∈ ["GOARCH"; "GOARM"; "CC"; "CXX"; "GOOS"]).
Proof.
  intros Hrun Hin.
  destruct (setupContainerImages_new_image _ _ _ _ _ _ _ _ Hrun Hin)
    as (runner & arch & _ & Hsetup).
  destruct (setupImage_Some _ _ _ _ Hsetup) as (_ & _ & Harch & _).
  destruct (setupImage_env _ _ _ _ Hsetup) as (H1 & H2 & H3 & H4 & H5 & _).
  rewrite Harch. by split_and!.
Qed.

Lemma descriptor_environment_witness :
  imageEnv demoArmImage !! "GOARCH" = Some (imageArch demoArmImage) ∧
  imageEnv demoArmImage !! "GOOS" = Some "linux" ∧
  imageEnv demoArmImage !! "GOARM"
  = (if decide (imageArch demoArmImage = "arm") then Some "7" else None) ∧
  (∃ target, imageEnv demoArmImage !! "CC" = Some ("zig cc" +:+ target) ∧
             imageEnv demoArmImage !! "CXX" = Some ("zig c++" +:+ target)) ∧
  (∀ key, is_Some (imageEnv demoArmImage !! key) ->
          key ∈ ["GOARCH"; "GOARM"; "CC"; "CXX"; "GOOS"]).
Proof.
  apply (descriptor_environment (quietHost "amd64" ["amd64,arm,amd64"])
           NewLinuxCommand demoSetupFlags ["./cmd/demo"] [] demoSetupCommand
           demoSetupTrace demoArmImage).
  - reflexivity.
  - apply list_elem_of_In. simpl. right. left. reflexivity.
Defined.

(** X14: The image reference does not depend on the architecture: every
    descriptor of one setup is created with the same reference, the shared
    default image passed through the caller's override, and by the same
    engine. *)
Theorem descriptors_share_image_reference host cmd flags args t cmd' t' a b :
  setupContainerImages host cmd flags args t = (Returns (cmd', None), t') ->
  a ∈ drop (length (Images cmd)) (Images cmd') ->
  b ∈ drop (length (Images cmd)) (Images cmd') ->
  imageRef a = overrideDockerImage (linuxCommonFlags flags)
                 "ghcr.io/herugen/fyne-cross-images-linux:latest" ∧
  imageRef a = imageRef b ∧ imageEngine a = imageEngine b.
Proof.
  intros Hrun Ha Hb.
  apply setupContainerImages_inv in Hrun
    as (ctx & runner & images & _ & _ & _ & Himages & -> & _).
  simpl in Ha, Hb. rewrite drop_app_length in Ha, Hb.
  apply list_elem_of_lookup in Ha as (i & Hi).
  apply list_elem_of_lookup in Hb as (j & Hj).
  destruct (Forall2_lookup_r _ _ _ _ _ Himages Hi) as (archa & _ & Hsa).
  destruct (Forall2_lookup_r _ _ _ _ _ Himages Hj) as (archb & _ & Hsb).
  destruct (setupImage_env _ _ _ _ Hsa) as (_ & _ & _ & _ & _ & Hra & Hea).
  destruct (setupImage_env _ _ _ _ Hsb) as (_ & _ & _ & _ & _ & Hrb & Heb).
  split_and!; congruence.
Qed.

Lemma descriptors_share_image_reference_witness :
  imageRef demoAmd64Image
  = overrideDockerImage (linuxCommonFlags demoSetupFlags)
      "ghcr.io/herugen/fyne-cross-images-linux:latest" ∧
  imageRef demoAmd64Image = imageRef demoArmImage ∧
  imageEngine demoAmd64Image = imageEngine demoArmImage.
Proof.
  apply (descriptors_share_image_reference (quietHost "amd64" ["amd64,arm,amd64"])
           NewLinuxCommand demoSetupFlags ["./cmd/demo"] [] demoSetupCommand
           demoSetupTrace demoAmd64Image demoArmImage).
  - reflexivity.
  - apply list_elem_of_In. simpl. left. reflexivity.
  - apply list_elem_of_In. simpl. right. left. reflexivity.
Defined.

(** X15: The toolchain entries are specific to the architecture: two descriptors
    of one setup that are for different architectures differ in GOARCH, in
    CC and in CXX. *)
Theorem descriptor_compilers_differ host cmd flags args t cmd' t' a b :
  setupContainerImages host cmd flags args t = (Returns (cmd', None), t') ->
  a ∈ drop (length (Images cmd)) (Images cmd') ->
  b ∈ drop (length (Images cmd)) (Images cmd') ->
  imageArch a ≠ imageArch b ->
  imageEnv a !! "GOARCH" ≠ imageEnv b !! "GOARCH" ∧
  imageEnv a !! "CC" ≠ imageEnv b !! "CC" ∧
  imageEnv a !! "CXX" ≠ imageEnv b !! "CXX".
Proof.
  intros Hrun Ha Hb Hne.
  destruct (setupContainerImages_new_image _ _ _ _ _ _ _ _ Hrun Ha)
    as (ra & archa & _ & Hsa).
  destruct (setupContainerImages_new_image _ _ _ _ _ _ _ _ Hrun Hb)
    as (rb & archb & _ & Hsb).
  destruct (setupImage_Some _ _ _ _ Hsa) as (_ & _ & Harcha & _).
  destruct (setupImage_Some _ _ _ _ Hsb) as (_ & _ & Harchb & _).
  eapply setupImage_compilers_differ; [exact Hsa|exact Hsb|congruence].
Qed.

Lemma descriptor_compilers_differ_witness :
  imageEnv demoAmd64Image !! "GOARCH" ≠ imageEnv demoArmImage !! "GOARCH" ∧
  imageEnv demoAmd64Image !! "CC" ≠ imageEnv demoArmImage !! "CC" ∧
  imageEnv demoAmd64Image !! "CXX" ≠ imageEnv demoArmImage !! "CXX".
Proof.
  apply (descriptor_compilers_differ (quietHost "amd64" ["amd64,arm,amd64"])
           NewLinuxCommand demoSetupFlags ["./cmd/demo"] [] demoSetupCommand
           demoSetupTrace demoAmd64Image demoArmImage).
  - reflexivity.
  - apply list_elem_of_In. simpl. left. reflexivity.
  - apply list_elem_of_In. simpl. right. left. reflexivity.
  - intros Heq. discriminate Heq.
Defined.

(** X16: Without an [-arch] value, on a host whose architecture Linux builds
    support and with the context and the engine made, [Parse] appends exactly
    one descriptor to the command; it is for the host's architecture and
    carries GOARCH equal to it and GOOS=linux. *)
Theorem Parse_default_builds_host_arch host cmd args t commonFlags ctx runner :
  host_newCommonFlags host t = inl commonFlags ->
  archValues (host_flagSetParse host (t ++ [CallNewCommonFlags]) commonFlags args)
  = [] ->
  GOARCH host ∈ linuxArchSupported ->
  host_makeDefaultContext host (t ++ [CallNewCommonFlags; CallFlagSetParse args])
    (parsedCommon (host_flagSetParse host (t ++ [CallNewCommonFlags])
                     commonFlags args))
    (positional (host_flagSetParse host (t ++ [CallNewCommonFlags])
                   commonFlags args)) = inl ctx ->
  host_newContainerEngine host
    (t ++ [CallNewCommonFlags; CallFlagSetParse args;
           CallMakeDefaultContext
             (parsedCommon (host_flagSetParse host (t ++ [CallNewCommonFlags])
                              commonFlags args))
             (positional (host_flagSetParse host (t ++ [CallNewCommonFlags])
                            commonFlags args))]) ctx = inl runner ->
  ∃ image t',
    Parse host cmd args t
    = (Returns ({| Images := Images cmd ++ [image]; defaultContext := ctx |}, None),
       t') ∧
    imageArch image = GOARCH host ∧ imageOS image = "linux" ∧
    imageEnv image !! "GOARCH" = Some (GOARCH host) ∧
    imageEnv image !! "GOOS" = Some "linux" ∧
    filter (λ e, isCreate e = true) (drop (length t) t')
    = [CallCreateContainerImage (GOARCH host) "linux" (imageRef image)].
Proof.
  intros Hflags Hnone Harch Hctx Heng.
  rewrite (Parse_unfold _ _ _ _ commonFlags) by done. rewrite Hnone. simpl foldl.
  set (p := host_flagSetParse host (t ++ [CallNewCommonFlags]) commonFlags args) in *.
  set (flags := {| linuxCommonFlags := parsedCommon p; TargetArch := [GOARCH host] |}).
  destruct (setupContainerImages_succeeds host cmd flags (positional p)
              (t ++ [CallNewCommonFlags; CallFlagSetParse args]) ctx runner)
    as (images & Himages & Hrun).
  { constructor; [done|constructor]. }
  { done. }
  { rewrite <- app_assoc. exact Heng. }
  simpl in Himages.
  apply Forall2_cons_inv_l in Himages as (image & rest & Hsetup & Himages & ->).
  apply Forall2_nil_inv_l in Himages as ->.
  destruct (setupImage_Some _ _ _ _ Hsetup) as (_ & _ & Himarch & Hos).
  destruct (setupImage_env _ _ _ _ Hsetup) as (Hgoarch & Hgoos & _ & _ & _ & Href & _).
  exists image. eexists. split; [exact Hrun|]. split_and!; try done.
  rewrite <- app_assoc, drop_app_length. simpl.
  rewrite Href. unfold createCall, linuxImage. simpl. by repeat case_decide.
Qed.

Lemma Parse_default_builds_host_arch_witness :
  ∃ image t',
    Parse (quietHost "arm64" []) NewLinuxCommand ["./cmd/demo"] []
    = (Returns ({| Images := Images NewLinuxCommand ++ [image];
                   defaultContext := demoContext |}, None), t') ∧
    imageArch image = GOARCH (quietHost "arm64" []) ∧ imageOS image = "linux" ∧
    imageEnv image !! "GOARCH" = Some (GOARCH (quietHost "arm64" [])) ∧
    imageEnv image !! "GOOS" = Some "linux" ∧
    filter (λ e, isCreate e = true) (drop (length (@nil Event)) t')
    = [CallCreateContainerImage (GOARCH (quietHost "arm64" [])) "linux"
         (imageRef image)].
Proof.
  apply (Parse_default_builds_host_arch (quietHost "arm64" []) NewLinuxCommand
           ["./cmd/demo"] [] demoFlags demoContext demoEngine).
  - reflexivity.
  - reflexivity.
  - apply elem_of_linuxArchSupported. right. right. right. reflexivity.
  - reflexivity.
  - reflexivity.
Defined.


